(** * Basketball-AI-BE: the video pipeline, its rows and its validators

    A shallow embedding of the Django application: the five models
    ([videos/models.py], [players/models.py], [actions/models.py],
    [highlights/models.py], [stats/models.py]), the two validating
    serializers ([stats/serializers.py], [actions/serializers.py]) and the
    Celery task chain of [core/tasks.py].

    Conventions of the embedding.
    - [IntegerField] columns and Python [int]s are [Z].  In the task chain
      [FloatField] columns and Python [float]s are idealised as exact
      rationals [Q].  The check of [ActionCreateSerializer.validate] on a
      difference of two floats is decided by rounding at its 30-second
      boundary, so the serializer works on IEEE 754 binary64 values
      ([float]), with the subtraction rounded to nearest, ties to even.
    - A database table is the list of its rows in primary-key order, which is
      the order an unordered QuerySet is read in; [objects.create] appends a
      row under a fresh key and [save] rewrites the row with the same key.
      Reads are answered from the tables; of the constraints of the schema
      the declared [unique_together] ones are checked on insertion, and so
      is the one required column a caller leaves unset, the [duration] of
      a [Highlight].
    - A task is a computation [M A] over the [World] (the tables and the
      broker queue) that either returns or raises; [try: ... except] is
      [try_except].  Every call that leaves the process (library call,
      broker, database write) names a [Site], and the environment [Env]
      says which sites raise and with which message.
    - [logger] calls have no modelled effect and are left out. *)

From stdpp Require Import gmap strings list pretty sorting.
From Stdlib Require Import Ascii QArith Qround SpecFloat.
Close Scope Q_scope.

Set Default Proof Using "Type".

(** ** Python values and arithmetic *)

Inductive PyVal : Type :=
| VInt (n : Z)
| VNum (q : Q)
| VStr (s : string).

(** A [dict] with string keys, in insertion order, as returned by the
    tasks; [dict_get] is [d.get(key)]. *)
Abbreviation Dict := (list (string * PyVal)).

Fixpoint dict_get {V : Type} (key : string) (d : list (string * V))
    : option V :=
  match d with
  | [] => None
  | (k, v) :: d' => if String.eqb k key then Some v else dict_get key d'
  end.

Inductive exn : Type :=
| Video_DoesNotExist
| Highlight_DoesNotExist
| IntegrityError (msg : string)
| ValidationError (msg : string)
| ZeroDivisionError
| ValueError (msg : string)
| IndexError (msg : string)
| Exception (msg : string).

(** [str(e)] *)
Definition str (e : exn) : string :=
  match e with
  | Video_DoesNotExist => "Video matching query does not exist."
  | Highlight_DoesNotExist => "Highlight matching query does not exist."
  | IntegrityError msg => msg
  | ValidationError msg => msg
  | ZeroDivisionError => "division by zero"
  | ValueError msg => msg
  | IndexError msg => msg
  | Exception msg => msg
  end.

(** The outcome of a Python expression or call. *)
Inductive Res (A : Type) : Type :=
| Ok (a : A)
| Raise (e : exn).
Arguments Ok {A} a.
Arguments Raise {A} e.

#[global] Instance Res_ret : MRet Res := λ A a, Ok a.
#[global] Instance Res_bind : MBind Res := λ A B f m,
  match m with
  | Ok a => f a
  | Raise e => Raise e
  end.

(** A Python [float]: a binary64 value, 53 bits of precision and
    infinities at exponent 1024. *)
Definition float : Type := spec_float.

(** [float(n)] on an [int]. *)
Definition float_of_int (n : Z) : float := binary_normalize 53 1024 n 0 false.

(** [a - b] and [a / b] on two floats, and the comparisons [a > b] and
    [a >= b]; a comparison with a NaN is false. *)
Definition float_sub (a b : float) : float := SFsub 53 1024 a b.
Definition float_truediv (a b : float) : float := SFdiv 53 1024 a b.
Definition float_gt (a b : float) : bool := SFltb b a.
Definition float_ge (a b : float) : bool := SFleb b a.

(** The rational a finite float stands for. *)
Definition float_value (a : float) : option Q :=
  match a with
  | S754_zero _ => Some 0%Q
  | S754_finite s m e =>
      Some ((if s then -1 else 1) * inject_Z (Z.pos m) * 2 ^ e)%Q
  | _ => None
  end.

(** The float a decimal literal [n/d] is read as, for [n] and [d] below
    2^53: the quotient of two exact floats is the float nearest to the
    literal. *)
Definition float_of_decimal (n d : Z) : float :=
  float_truediv (float_of_int n) (float_of_int d).

Definition Qgtb (a b : Q) : bool := negb (Qle_bool a b).
Definition Qgeb (a b : Q) : bool := Qle_bool b a.
Definition Qltb (a b : Q) : bool := negb (Qle_bool b a).

(** [max(a, b)] and [min(a, b)] as Python computes them: the first argument
    wins unless the second is strictly better. *)
Definition py_max (a b : Q) : Q := if Qgtb b a then b else a.
Definition py_min (a b : Q) : Q := if Qltb b a then b else a.

(** [a / b] on two [int]s: true division. *)
Definition truediv (a b : Z) : Res Q :=
  if (b =? 0)%Z then Raise ZeroDivisionError
  else Ok (inject_Z a / inject_Z b)%Q.

(** Nearest integer, ties to even. *)
Definition round_half_even (q : Q) : Z :=
  let f := Qfloor q in
  let r := (q - inject_Z f)%Q in
  if Qltb r (1 # 2) then f
  else if Qgtb r (1 # 2) then (f + 1)%Z
  else if Z.even f then f else (f + 1)%Z.

(** [round(q, 1)] *)
Definition round1 (q : Q) : Q := Qred (round_half_even (q * 10) # 10).

(** [int(q)]: truncation towards zero. *)
Definition py_int (q : Q) : Z := Z.quot (Qnum q) (Z.pos (Qden q)).

(** [range(start, stop, step)] *)
Fixpoint range_up (fuel : nat) (start stop step : Z) : list Z :=
  match fuel with
  | O => []
  | S fuel' =>
      if (start <? stop)%Z then start :: range_up fuel' (start + step) stop step
      else []
  end.

Fixpoint range_down (fuel : nat) (start stop step : Z) : list Z :=
  match fuel with
  | O => []
  | S fuel' =>
      if (stop <? start)%Z
      then start :: range_down fuel' (start + step) stop step
      else []
  end.

Definition py_range (start stop step : Z) : Res (list Z) :=
  if (step =? 0)%Z then Raise (ValueError "range() arg 3 must not be zero")
  else if (0 <? step)%Z
       then Ok (range_up (Z.to_nat (stop - start)) start stop step)
       else Ok (range_down (Z.to_nat (start - stop)) start stop step).

(** [s.replace(a, b)] for single characters, and [s.title()] on ASCII. *)
Fixpoint replace_char (a b : ascii) (s : string) : string :=
  match s with
  | EmptyString => EmptyString
  | String c s' =>
      String (if Ascii.eqb c a then b else c) (replace_char a b s')
  end.

Definition is_lower (c : ascii) : bool :=
  let n := nat_of_ascii c in (97 <=? n)%nat && (n <=? 122)%nat.
Definition is_upper (c : ascii) : bool :=
  let n := nat_of_ascii c in (65 <=? n)%nat && (n <=? 90)%nat.
Definition to_upper (c : ascii) : ascii :=
  if is_lower c then ascii_of_nat (nat_of_ascii c - 32) else c.
Definition to_lower (c : ascii) : ascii :=
  if is_upper c then ascii_of_nat (nat_of_ascii c + 32) else c.

Fixpoint title_from (previous_is_cased : bool) (s : string) : string :=
  match s with
  | EmptyString => EmptyString
  | String c s' =>
      String (if previous_is_cased then to_lower c else to_upper c)
             (title_from (is_lower c || is_upper c) s')
  end.

Definition py_title (s : string) : string := title_from false s.

(** ** The models *)

(** [videos/models.py].  [BaseModel] (core/models.py) is not part of the
    sources; its primary key is taken to be an opaque identifier, a [nat]
    here, and [str(video.id)] is the identity on it. *)
Module Video.

Definition STATUS_CHOICES : list (string * string) :=
  [ ("uploaded", "Uploaded");
    ("processing", "Processing");
    ("players_detected", "Players Detected");
    ("actions_done", "Actions Analyzed");
    ("highlights_created", "Highlights Created");
    ("done", "Complete");
    ("error", "Error") ].

Record t : Type := mk {
  id : nat;
  user : nat;
  file : string;
  upload_date : Z;
  status : string;
  duration : option Q;
  fps : option Q;
  width : option Z;
  height : option Z;
  error_message : option string;
  processing_started_at : option Z;
  processing_completed_at : option Z
}.

Definition set_status (v : string) (r : t) : t :=
  {| id := id r; user := user r; file := file r;
     upload_date := upload_date r; status := v; duration := duration r;
     fps := fps r; width := width r; height := height r;
     error_message := error_message r;
     processing_started_at := processing_started_at r;
     processing_completed_at := processing_completed_at r |}.

Definition set_error_message (v : option string) (r : t) : t :=
  {| id := id r; user := user r; file := file r;
     upload_date := upload_date r; status := status r;
     duration := duration r; fps := fps r; width := width r;
     height := height r; error_message := v;
     processing_started_at := processing_started_at r;
     processing_completed_at := processing_completed_at r |}.

Definition set_processing_started_at (v : option Z) (r : t) : t :=
  {| id := id r; user := user r; file := file r;
     upload_date := upload_date r; status := status r;
     duration := duration r; fps := fps r; width := width r;
     height := height r; error_message := error_message r;
     processing_started_at := v;
     processing_completed_at := processing_completed_at r |}.

Definition set_processing_completed_at (v : option Z) (r : t) : t :=
  {| id := id r; user := user r; file := file r;
     upload_date := upload_date r; status := status r;
     duration := duration r; fps := fps r; width := width r;
     height := height r; error_message := error_message r;
     processing_started_at := processing_started_at r;
     processing_completed_at := v |}.

End Video.

(** [players/models.py] *)
Module Player.

Record t : Type := mk {
  id : nat;
  video : nat;
  jersey_number : option string;
  team_color : string;
  player_id_model : string;
  detection_confidence : Q;
  avg_bbox_area : option Q
}.

End Player.

(** [actions/models.py] *)
Module Action.

Record t : Type := mk {
  id : nat;
  video : nat;
  player : option nat;
  type : string;
  start_time : Q;
  end_time : Q;
  is_successful : option bool;
  x : option Q;
  y : option Q;
  model_type : string;
  confidence : Q;
  metadata : list (string * Z)
}.

(** The [duration] property. *)
Definition duration_of (a : t) : Q := (end_time a - start_time a)%Q.

End Action.

(** [highlights/models.py].  The many-to-many field [actions] is the join
    table [highlight_actions] of the [World]. *)
Module Highlight.

Record t : Type := mk {
  id : nat;
  video : nat;
  player : option nat;
  title : string;
  description : option string;
  highlight_type : string;
  file : string;
  duration : option Q;
  min_confidence : Q;
  max_duration : Q;
  is_processing : bool;
  processing_error : option string;
  view_count : Z;
  download_count : Z
}.

Definition set_id (v : nat) (r : t) : t :=
  {| id := v; video := video r; player := player r; title := title r;
     description := description r; highlight_type := highlight_type r;
     file := file r; duration := duration r;
     min_confidence := min_confidence r; max_duration := max_duration r;
     is_processing := is_processing r;
     processing_error := processing_error r; view_count := view_count r;
     download_count := download_count r |}.

Definition set_file (v : string) (r : t) : t :=
  {| id := id r; video := video r; player := player r; title := title r;
     description := description r; highlight_type := highlight_type r;
     file := v; duration := duration r; min_confidence := min_confidence r;
     max_duration := max_duration r; is_processing := is_processing r;
     processing_error := processing_error r; view_count := view_count r;
     download_count := download_count r |}.

Definition set_duration (v : option Q) (r : t) : t :=
  {| id := id r; video := video r; player := player r; title := title r;
     description := description r; highlight_type := highlight_type r;
     file := file r; duration := v; min_confidence := min_confidence r;
     max_duration := max_duration r; is_processing := is_processing r;
     processing_error := processing_error r; view_count := view_count r;
     download_count := download_count r |}.

Definition set_is_processing (v : bool) (r : t) : t :=
  {| id := id r; video := video r; player := player r; title := title r;
     description := description r; highlight_type := highlight_type r;
     file := file r; duration := duration r;
     min_confidence := min_confidence r; max_duration := max_duration r;
     is_processing := v; processing_error := processing_error r;
     view_count := view_count r; download_count := download_count r |}.

Definition set_processing_error (v : option string) (r : t) : t :=
  {| id := id r; video := video r; player := player r; title := title r;
     description := description r; highlight_type := highlight_type r;
     file := file r; duration := duration r;
     min_confidence := min_confidence r; max_duration := max_duration r;
     is_processing := is_processing r; processing_error := v;
     view_count := view_count r; download_count := download_count r |}.

End Highlight.

(** [stats/models.py] *)
Module Stats.

Record t : Type := mk {
  id : nat;
  video : nat;
  player : nat;
  fga_2pt : Z;
  fgm_2pt : Z;
  fga_3pt : Z;
  fgm_3pt : Z;
  fta : Z;
  ftm : Z;
  assists : Z;
  rebounds : Z;
  offensive_rebounds : Z;
  defensive_rebounds : Z;
  steals : Z;
  blocks : Z;
  turnovers : Z;
  fouls : Z;
  points : Z;
  minutes_played : Q;
  plus_minus : Z
}.

Definition set_id (v : nat) (r : t) : t :=
  {| id := v; video := video r; player := player r; fga_2pt := fga_2pt r;
     fgm_2pt := fgm_2pt r; fga_3pt := fga_3pt r; fgm_3pt := fgm_3pt r;
     fta := fta r; ftm := ftm r; assists := assists r;
     rebounds := rebounds r; offensive_rebounds := offensive_rebounds r;
     defensive_rebounds := defensive_rebounds r; steals := steals r;
     blocks := blocks r; turnovers := turnovers r; fouls := fouls r;
     points := points r; minutes_played := minutes_played r;
     plus_minus := plus_minus r |}.

Definition set_fga_2pt (v : Z) (r : t) : t :=
  {| id := id r; video := video r; player := player r; fga_2pt := v;
     fgm_2pt := fgm_2pt r; fga_3pt := fga_3pt r; fgm_3pt := fgm_3pt r;
     fta := fta r; ftm := ftm r; assists := assists r;
     rebounds := rebounds r; offensive_rebounds := offensive_rebounds r;
     defensive_rebounds := defensive_rebounds r; steals := steals r;
     blocks := blocks r; turnovers := turnovers r; fouls := fouls r;
     points := points r; minutes_played := minutes_played r;
     plus_minus := plus_minus r |}.

Definition set_fgm_2pt (v : Z) (r : t) : t :=
  {| id := id r; video := video r; player := player r; fga_2pt := fga_2pt r;
     fgm_2pt := v; fga_3pt := fga_3pt r; fgm_3pt := fgm_3pt r; fta := fta r;
     ftm := ftm r; assists := assists r; rebounds := rebounds r;
     offensive_rebounds := offensive_rebounds r;
     defensive_rebounds := defensive_rebounds r; steals := steals r;
     blocks := blocks r; turnovers := turnovers r; fouls := fouls r;
     points := points r; minutes_played := minutes_played r;
     plus_minus := plus_minus r |}.

Definition set_fga_3pt (v : Z) (r : t) : t :=
  {| id := id r; video := video r; player := player r; fga_2pt := fga_2pt r;
     fgm_2pt := fgm_2pt r; fga_3pt := v; fgm_3pt := fgm_3pt r; fta := fta r;
     ftm := ftm r; assists := assists r; rebounds := rebounds r;
     offensive_rebounds := offensive_rebounds r;
     defensive_rebounds := defensive_rebounds r; steals := steals r;
     blocks := blocks r; turnovers := turnovers r; fouls := fouls r;
     points := points r; minutes_played := minutes_played r;
     plus_minus := plus_minus r |}.

Definition set_fgm_3pt (v : Z) (r : t) : t :=
  {| id := id r; video := video r; player := player r; fga_2pt := fga_2pt r;
     fgm_2pt := fgm_2pt r; fga_3pt := fga_3pt r; fgm_3pt := v; fta := fta r;
     ftm := ftm r; assists := assists r; rebounds := rebounds r;
     offensive_rebounds := offensive_rebounds r;
     defensive_rebounds := defensive_rebounds r; steals := steals r;
     blocks := blocks r; turnovers := turnovers r; fouls := fouls r;
     points := points r; minutes_played := minutes_played r;
     plus_minus := plus_minus r |}.

Definition set_fta (v : Z) (r : t) : t :=
  {| id := id r; video := video r; player := player r; fga_2pt := fga_2pt r;
     fgm_2pt := fgm_2pt r; fga_3pt := fga_3pt r; fgm_3pt := fgm_3pt r;
     fta := v; ftm := ftm r; assists := assists r; rebounds := rebounds r;
     offensive_rebounds := offensive_rebounds r;
     defensive_rebounds := defensive_rebounds r; steals := steals r;
     blocks := blocks r; turnovers := turnovers r; fouls := fouls r;
     points := points r; minutes_played := minutes_played r;
     plus_minus := plus_minus r |}.

Definition set_ftm (v : Z) (r : t) : t :=
  {| id := id r; video := video r; player := player r; fga_2pt := fga_2pt r;
     fgm_2pt := fgm_2pt r; fga_3pt := fga_3pt r; fgm_3pt := fgm_3pt r;
     fta := fta r; ftm := v; assists := assists r; rebounds := rebounds r;
     offensive_rebounds := offensive_rebounds r;
     defensive_rebounds := defensive_rebounds r; steals := steals r;
     blocks := blocks r; turnovers := turnovers r; fouls := fouls r;
     points := points r; minutes_played := minutes_played r;
     plus_minus := plus_minus r |}.

Definition set_assists (v : Z) (r : t) : t :=
  {| id := id r; video := video r; player := player r; fga_2pt := fga_2pt r;
     fgm_2pt := fgm_2pt r; fga_3pt := fga_3pt r; fgm_3pt := fgm_3pt r;
     fta := fta r; ftm := ftm r; assists := v; rebounds := rebounds r;
     offensive_rebounds := offensive_rebounds r;
     defensive_rebounds := defensive_rebounds r; steals := steals r;
     blocks := blocks r; turnovers := turnovers r; fouls := fouls r;
     points := points r; minutes_played := minutes_played r;
     plus_minus := plus_minus r |}.

Definition set_rebounds (v : Z) (r : t) : t :=
  {| id := id r; video := video r; player := player r; fga_2pt := fga_2pt r;
     fgm_2pt := fgm_2pt r; fga_3pt := fga_3pt r; fgm_3pt := fgm_3pt r;
     fta := fta r; ftm := ftm r; assists := assists r; rebounds := v;
     offensive_rebounds := offensive_rebounds r;
     defensive_rebounds := defensive_rebounds r; steals := steals r;
     blocks := blocks r; turnovers := turnovers r; fouls := fouls r;
     points := points r; minutes_played := minutes_played r;
     plus_minus := plus_minus r |}.

Definition set_offensive_rebounds (v : Z) (r : t) : t :=
  {| id := id r; video := video r; player := player r; fga_2pt := fga_2pt r;
     fgm_2pt := fgm_2pt r; fga_3pt := fga_3pt r; fgm_3pt := fgm_3pt r;
     fta := fta r; ftm := ftm r; assists := assists r;
     rebounds := rebounds r; offensive_rebounds := v;
     defensive_rebounds := defensive_rebounds r; steals := steals r;
     blocks := blocks r; turnovers := turnovers r; fouls := fouls r;
     points := points r; minutes_played := minutes_played r;
     plus_minus := plus_minus r |}.

Definition set_defensive_rebounds (v : Z) (r : t) : t :=
  {| id := id r; video := video r; player := player r; fga_2pt := fga_2pt r;
     fgm_2pt := fgm_2pt r; fga_3pt := fga_3pt r; fgm_3pt := fgm_3pt r;
     fta := fta r; ftm := ftm r; assists := assists r;
     rebounds := rebounds r; offensive_rebounds := offensive_rebounds r;
     defensive_rebounds := v; steals := steals r; blocks := blocks r;
     turnovers := turnovers r; fouls := fouls r; points := points r;
     minutes_played := minutes_played r; plus_minus := plus_minus r |}.

Definition set_steals (v : Z) (r : t) : t :=
  {| id := id r; video := video r; player := player r; fga_2pt := fga_2pt r;
     fgm_2pt := fgm_2pt r; fga_3pt := fga_3pt r; fgm_3pt := fgm_3pt r;
     fta := fta r; ftm := ftm r; assists := assists r;
     rebounds := rebounds r; offensive_rebounds := offensive_rebounds r;
     defensive_rebounds := defensive_rebounds r; steals := v;
     blocks := blocks r; turnovers := turnovers r; fouls := fouls r;
     points := points r; minutes_played := minutes_played r;
     plus_minus := plus_minus r |}.

Definition set_blocks (v : Z) (r : t) : t :=
  {| id := id r; video := video r; player := player r; fga_2pt := fga_2pt r;
     fgm_2pt := fgm_2pt r; fga_3pt := fga_3pt r; fgm_3pt := fgm_3pt r;
     fta := fta r; ftm := ftm r; assists := assists r;
     rebounds := rebounds r; offensive_rebounds := offensive_rebounds r;
     defensive_rebounds := defensive_rebounds r; steals := steals r;
     blocks := v; turnovers := turnovers r; fouls := fouls r;
     points := points r; minutes_played := minutes_played r;
     plus_minus := plus_minus r |}.

Definition set_turnovers (v : Z) (r : t) : t :=
  {| id := id r; video := video r; player := player r; fga_2pt := fga_2pt r;
     fgm_2pt := fgm_2pt r; fga_3pt := fga_3pt r; fgm_3pt := fgm_3pt r;
     fta := fta r; ftm := ftm r; assists := assists r;
     rebounds := rebounds r; offensive_rebounds := offensive_rebounds r;
     defensive_rebounds := defensive_rebounds r; steals := steals r;
     blocks := blocks r; turnovers := v; fouls := fouls r;
     points := points r; minutes_played := minutes_played r;
     plus_minus := plus_minus r |}.

Definition set_fouls (v : Z) (r : t) : t :=
  {| id := id r; video := video r; player := player r; fga_2pt := fga_2pt r;
     fgm_2pt := fgm_2pt r; fga_3pt := fga_3pt r; fgm_3pt := fgm_3pt r;
     fta := fta r; ftm := ftm r; assists := assists r;
     rebounds := rebounds r; offensive_rebounds := offensive_rebounds r;
     defensive_rebounds := defensive_rebounds r; steals := steals r;
     blocks := blocks r; turnovers := turnovers r; fouls := v;
     points := points r; minutes_played := minutes_played r;
     plus_minus := plus_minus r |}.

Definition set_points (v : Z) (r : t) : t :=
  {| id := id r; video := video r; player := player r; fga_2pt := fga_2pt r;
     fgm_2pt := fgm_2pt r; fga_3pt := fga_3pt r; fgm_3pt := fgm_3pt r;
     fta := fta r; ftm := ftm r; assists := assists r;
     rebounds := rebounds r; offensive_rebounds := offensive_rebounds r;
     defensive_rebounds := defensive_rebounds r; steals := steals r;
     blocks := blocks r; turnovers := turnovers r; fouls := fouls r;
     points := v; minutes_played := minutes_played r;
     plus_minus := plus_minus r |}.

Definition set_minutes_played (v : Q) (r : t) : t :=
  {| id := id r; video := video r; player := player r; fga_2pt := fga_2pt r;
     fgm_2pt := fgm_2pt r; fga_3pt := fga_3pt r; fgm_3pt := fgm_3pt r;
     fta := fta r; ftm := ftm r; assists := assists r;
     rebounds := rebounds r; offensive_rebounds := offensive_rebounds r;
     defensive_rebounds := defensive_rebounds r; steals := steals r;
     blocks := blocks r; turnovers := turnovers r; fouls := fouls r;
     points := points r; minutes_played := v; plus_minus := plus_minus r |}.

(** [Stats(video=..., player=...)]: every other column at its default. *)
Definition new (video player : nat) : t :=
  {| id := 0; video := video; player := player;
     fga_2pt := 0; fgm_2pt := 0; fga_3pt := 0; fgm_3pt := 0; fta := 0;
     ftm := 0; assists := 0; rebounds := 0; offensive_rebounds := 0;
     defensive_rebounds := 0; steals := 0; blocks := 0; turnovers := 0;
     fouls := 0; points := 0; minutes_played := 0; plus_minus := 0 |}.

(** [calculate_shooting_percentages(self)] *)
Definition calculate_shooting_percentages (self : t) : Res Dict :=
  fg2_pct ← (if (0 <? fga_2pt self)%Z
             then q ← truediv (fgm_2pt self) (fga_2pt self); mret (q * 100)%Q
             else mret 0%Q);
  fg3_pct ← (if (0 <? fga_3pt self)%Z
             then q ← truediv (fgm_3pt self) (fga_3pt self); mret (q * 100)%Q
             else mret 0%Q);
  ft_pct ← (if (0 <? fta self)%Z
            then q ← truediv (ftm self) (fta self); mret (q * 100)%Q
            else mret 0%Q);
  let total_fga := (fga_2pt self + fga_3pt self)%Z in
  let total_fgm := (fgm_2pt self + fgm_3pt self)%Z in
  fg_pct ← (if (0 <? total_fga)%Z
            then q ← truediv total_fgm total_fga; mret (q * 100)%Q
            else mret 0%Q);
  mret [ ("fg_pct", VNum (round1 fg_pct));
         ("fg2_pct", VNum (round1 fg2_pct));
         ("fg3_pct", VNum (round1 fg3_pct));
         ("ft_pct", VNum (round1 ft_pct)) ].

(** [calculate_points(self)]: sets [self.points] and returns it. *)
Definition calculate_points (self : t) : t * Z :=
  let pts := (fgm_2pt self * 2 + fgm_3pt self * 3 + ftm self)%Z in
  (set_points pts self, pts).

(** What [save(self)] does to the instance before handing it to
    [super().save()]. *)
Definition pre_save (self : t) : t :=
  let self := fst (calculate_points self) in
  set_rebounds (offensive_rebounds self + defensive_rebounds self)%Z self.

End Stats.

(** ** Serializer validation *)

(** [stats/serializers.py], [StatsCreateUpdateSerializer].  The validated
    [data] holds a value for each declared field the request supplied; a
    partial update leaves the others out. *)
Module StatsCreateUpdateSerializer.

Record data : Type := mk_data {
  video : option nat;
  player : option nat;
  fga_2pt : option Z;
  fgm_2pt : option Z;
  fga_3pt : option Z;
  fgm_3pt : option Z;
  fta : option Z;
  ftm : option Z;
  assists : option Z;
  offensive_rebounds : option Z;
  defensive_rebounds : option Z;
  steals : option Z;
  blocks : option Z;
  turnovers : option Z;
  fouls : option Z;
  minutes_played : option Q;
  plus_minus : option Z
}.

(** [data.get(key, 0)] *)
Definition get (field : option Z) (dflt : Z) : Z := default dflt field.

Definition validate (d : data) : Res data :=
  if (get (fgm_2pt d) 0 >? get (fga_2pt d) 0)%Z
  then Raise (ValidationError "2-point made cannot exceed attempts")
  else if (get (fgm_3pt d) 0 >? get (fga_3pt d) 0)%Z
  then Raise (ValidationError "3-point made cannot exceed attempts")
  else if (get (ftm d) 0 >? get (fta d) 0)%Z
  then Raise (ValidationError "Free throws made cannot exceed attempts")
  else Ok d.

End StatsCreateUpdateSerializer.

(** [actions/serializers.py], [ActionCreateSerializer].  The serializer is
    used for creation only, where [video], [type], [start_time] and
    [end_time] are required. *)
Module ActionCreateSerializer.

Record data : Type := mk_data {
  video : nat;
  player : option nat;
  type : string;
  start_time : float;
  end_time : float;
  is_successful : option bool;
  x : option float;
  y : option float
}.

(** [30] is an [int]; Python compares a float with it by value, which is
    the comparison with the float 30.0. *)
Definition validate (d : data) : Res data :=
  if float_ge (start_time d) (end_time d)
  then Raise (ValidationError "End time must be after start time")
  else if float_gt (float_sub (end_time d) (start_time d)) (float_of_int 30)
  then Raise (ValidationError "Action duration cannot exceed 30 seconds")
  else Ok d.

End ActionCreateSerializer.

(** ** The world the tasks run in *)

(** A task invocation as handed to the broker by [.delay(...)].  Row keys
    travel as themselves. *)
Inductive Call : Type :=
| call_process_video_task (video_id : nat)
| call_detect_players_task (video_id : nat)
| call_analyze_ball_and_score_task (video_id : nat)
| call_detect_actions_with_mmaction
    (video_id : nat) (model_type : string) (confidence_threshold : Q)
| call_calculate_stats_task (video_id : nat)
| call_auto_generate_highlights_task (video_id : nat)
| call_create_highlight_video (highlight_id : nat).

Record World : Type := mk_World {
  videos : list Video.t;
  players : list Player.t;
  actions : list Action.t;
  highlights : list Highlight.t;
  highlight_actions : list (nat * nat);
  stats : list Stats.t;
  queue : list Call
}.

Definition set_videos (f : list Video.t → list Video.t) (w : World) : World :=
  {| videos := f (videos w); players := players w; actions := actions w;
     highlights := highlights w; highlight_actions := highlight_actions w;
     stats := stats w; queue := queue w |}.

Definition set_players (f : list Player.t → list Player.t) (w : World) : World :=
  {| videos := videos w; players := f (players w); actions := actions w;
     highlights := highlights w; highlight_actions := highlight_actions w;
     stats := stats w; queue := queue w |}.

Definition set_actions (f : list Action.t → list Action.t) (w : World) : World :=
  {| videos := videos w; players := players w; actions := f (actions w);
     highlights := highlights w; highlight_actions := highlight_actions w;
     stats := stats w; queue := queue w |}.

Definition set_highlights (f : list Highlight.t → list Highlight.t)
    (w : World) : World :=
  {| videos := videos w; players := players w; actions := actions w;
     highlights := f (highlights w); highlight_actions := highlight_actions w;
     stats := stats w; queue := queue w |}.

Definition set_highlight_actions (f : list (nat * nat) → list (nat * nat))
    (w : World) : World :=
  {| videos := videos w; players := players w; actions := actions w;
     highlights := highlights w; highlight_actions := f (highlight_actions w);
     stats := stats w; queue := queue w |}.

Definition set_stats (f : list Stats.t → list Stats.t) (w : World) : World :=
  {| videos := videos w; players := players w; actions := actions w;
     highlights := highlights w; highlight_actions := highlight_actions w;
     stats := f (stats w); queue := queue w |}.

Definition set_queue (f : list Call → list Call) (w : World) : World :=
  {| videos := videos w; players := players w; actions := actions w;
     highlights := highlights w; highlight_actions := highlight_actions w;
     stats := stats w; queue := f (queue w) |}.

(** A call site that leaves the process: its name and, inside a loop, the
    index of the iteration. *)
Definition Site : Type := string * Z.

(** One bounding box reported by the detector. *)
Record Box : Type := mk_Box {
  cls : Z;
  conf : Q;
  xyxy : Q * Q * Q * Q
}.

(** One entry of [player_tracks]. *)
Record Track : Type := mk_Track {
  bbox_history : list (Q * Q * Q * Q);
  confidence_history : list Q;
  frame_indices : list nat
}.

(** One result of [inference_recognizer]; [pred] is [None] when the result
    has no [pred_scores] attribute. *)
Record Prediction : Type := mk_Prediction {
  pred : option (list Q * list Z)
}.

(** What the outside gives a task run: the clock, the settings, what the
    libraries compute from the files, and which call sites raise. *)
Record Env : Type := mk_Env {
  fault : Site → option string;
  now : Z;
  today : string;
  MMACTION2_CONFIG_PATH : option string;
  MMACTION2_CHECKPOINT_PATH : option string;
  VIDEO_SEGMENT_LENGTH : option Z;
  yolo_frames : string → list (list (option (list Box)));
  clip_duration : string → Q;
  recognizer_results : string → Z → list Prediction
}.

(** ** The task monad *)

Definition M (A : Type) : Type := World → Res A * World.

#[global] Instance M_ret : MRet M := λ A a w, (Ok a, w).
#[global] Instance M_bind : MBind M := λ A B f m w,
  match m w with
  | (Ok a, w') => f a w'
  | (Raise e, w') => (Raise e, w')
  end.

Definition raise {A : Type} (e : exn) : M A := λ w, (Raise e, w).
Definition lift {A : Type} (r : Res A) : M A := λ w, (r, w).
Definition gets {A : Type} (f : World → A) : M A := λ w, (Ok (f w), w).
Definition modify (f : World → World) : M unit := λ w, (Ok tt, f w).

(** [try: body  except Exception as e: handler(e)] *)
Definition try_except {A : Type} (body : M A) (handler : exn → M A) : M A :=
  λ w, match body w with
       | (Ok a, w') => (Ok a, w')
       | (Raise e, w') => handler e w'
       end.

(** Runs [m] and hands back its outcome instead of raising: the shape of a
    [try] statement whose local variables are read afterwards. *)
Definition attempt {A : Type} (m : M A) : M (Res A) :=
  λ w, match m w with (r, w') => (Ok r, w') end.

(** ** Tables *)

(** [save()] on a row that has a key: rewrite the row in place, or insert
    it when the key is new. *)
Fixpoint save_in {A : Type} (key : A → nat) (r : A) (l : list A) : list A :=
  match l with
  | [] => [r]
  | x :: l' => if (key x =? key r)%nat then r :: l' else x :: save_in key r l'
  end.

(** The key the database gives the next inserted row. *)
Definition next_id {A : Type} (key : A → nat) (l : list A) : nat :=
  S (max_list (key <$> l)).

Definition lookup_id {A : Type} (key : A → nat) (i : nat) (l : list A)
    : option A :=
  find (λ r, (key r =? i)%nat) l.

(** ** [core/tasks.py] *)
Module tasks.
Section with_env.
Context (env : Env).

(** A call that leaves the process: raises [Exception(msg)] when the
    environment says so, and has no modelled effect otherwise. *)
Definition external (name : string) (k : Z) : M unit :=
  match fault env (name, k) with
  | Some msg => raise (Exception msg)
  | None => mret tt
  end.

(** [task.delay(...)]: hands the call to the broker. *)
Definition delay (name : string) (k : Z) (c : Call) : M unit :=
  external name k;;
  modify (set_queue (λ q, q ++ [c])).

(** *** Database access *)

Definition Video_objects_get (video_id : nat) : M Video.t :=
  vs ← gets videos;
  match lookup_id Video.id video_id vs with
  | Some v => mret v
  | None => raise Video_DoesNotExist
  end.

Definition Video_save (name : string) (video : Video.t) : M unit :=
  external name 0;;
  modify (set_videos (save_in Video.id video)).

Definition Highlight_objects_get (highlight_id : nat) : M Highlight.t :=
  hs ← gets highlights;
  match lookup_id Highlight.id highlight_id hs with
  | Some h => mret h
  | None => raise Highlight_DoesNotExist
  end.

(** [highlight.save()].  The row saved was read from the table, which holds
    no row without a duration, or has just been given one. *)
Definition Highlight_save (name : string) (highlight : Highlight.t) : M unit :=
  external name 0;;
  modify (set_highlights (save_in Highlight.id highlight)).

(** [Highlight.objects.create(...)]: the row gets its key on insertion.
    The column [duration] is a [FloatField()] with neither [null=True] nor a
    default, so a row built without a duration is refused by the table. *)
Definition Highlight_objects_create (k : Z) (h : Highlight.t) : M Highlight.t :=
  external "Highlight.objects.create" k;;
  match Highlight.duration h with
  | None =>
      raise (IntegrityError
               "NOT NULL constraint failed: highlights_highlight.duration")
  | Some _ =>
      hs ← gets highlights;
      let h := Highlight.set_id (next_id Highlight.id hs) h in
      modify (set_highlights (λ l, l ++ [h]));;
      mret h
  end.

(** [Player.objects.create(...)], with [unique_together = ['video',
    'player_id_model']]. *)
Definition Player_objects_create (k : Z) (video : nat)
    (jersey_number : option string) (team_color player_id_model : string)
    (detection_confidence : Q) (avg_bbox_area : option Q) : M Player.t :=
  external "Player.objects.create" k;;
  ps ← gets players;
  if existsb (λ p, (Player.video p =? video)%nat
                   && bool_decide (Player.player_id_model p = player_id_model)) ps
  then raise (IntegrityError "UNIQUE constraint failed: players_player.video_id, players_player.player_id_model")
  else
    let p := {| Player.id := next_id Player.id ps; Player.video := video;
                Player.jersey_number := jersey_number;
                Player.team_color := team_color;
                Player.player_id_model := player_id_model;
                Player.detection_confidence := detection_confidence;
                Player.avg_bbox_area := avg_bbox_area |} in
    modify (set_players (λ l, l ++ [p]));;
    mret p.

(** [Action.objects.create(...)] *)
Definition Action_objects_create (k : Z) (a : Action.t) : M Action.t :=
  external "Action.objects.create" k;;
  acts ← gets actions;
  let a := {| Action.id := next_id Action.id acts;
              Action.video := Action.video a; Action.player := Action.player a;
              Action.type := Action.type a;
              Action.start_time := Action.start_time a;
              Action.end_time := Action.end_time a;
              Action.is_successful := Action.is_successful a;
              Action.x := Action.x a; Action.y := Action.y a;
              Action.model_type := Action.model_type a;
              Action.confidence := Action.confidence a;
              Action.metadata := Action.metadata a |} in
  modify (set_actions (λ l, l ++ [a]));;
  mret a.

(** [Stats.objects.create(video=..., player=...)]: [save()] runs on the new
    instance, and [unique_together = ['video', 'player']] is checked on
    insertion. *)
Definition Stats_objects_create (k : Z) (video player : nat) : M Stats.t :=
  let s := Stats.pre_save (Stats.new video player) in
  external "Stats.objects.create" k;;
  ss ← gets stats;
  if existsb (λ r, (Stats.video r =? video)%nat
                   && (Stats.player r =? player)%nat) ss
  then raise (IntegrityError "UNIQUE constraint failed: stats_stats.video_id, stats_stats.player_id")
  else
    let s := Stats.set_id (next_id Stats.id ss) s in
    modify (set_stats (λ l, l ++ [s]));;
    mret s.

(** [Stats.save(self)] *)
Definition Stats_save (k : Z) (self : Stats.t) : M Stats.t :=
  let self := Stats.pre_save self in
  external "stats.save" k;;
  modify (set_stats (save_in Stats.id self));;
  mret self.

(** [video.file.path] *)
Definition file_path (video : Video.t) : M string :=
  external "video.file.path" 0;;
  mret (Video.file video).

(** The dict a task answers a failure with. *)
Definition error_dict (message : string) : Dict :=
  [("status", VStr "error"); ("message", VStr message)].

(** The [except Exception as e] block shared by the five video tasks:
    [prefix] is the text put before [str(e)] in [error_message]. *)
Definition video_error_handler (video_id : nat) (prefix : string) (e : exn)
    : M Dict :=
  video ← Video_objects_get video_id;
  let video := Video.set_status "error" video in
  let video := Video.set_error_message (Some (prefix +:+ str e)) video in
  Video_save "except: video.save" video;;
  mret (error_dict (str e)).

(** *** [process_video_task] *)

Definition process_video_task_body (video_id : nat) : M Dict :=
  video ← Video_objects_get video_id;
  let video := Video.set_status "processing" video in
  let video := Video.set_processing_started_at (Some (now env)) video in
  Video_save "video.save" video;;
  delay "detect_players_task.delay" 0
        (call_detect_players_task (Video.id video));;
  mret [ ("status", VStr "started");
         ("video_id", VStr (pretty (Video.id video))) ].

Definition process_video_task_handler (video_id : nat) (e : exn) : M Dict :=
  match e with
  | Video_DoesNotExist => mret (error_dict "Video not found")
  | _ => video_error_handler video_id "" e
  end.

Definition process_video_task (video_id : nat) : M Dict :=
  try_except (process_video_task_body video_id)
             (process_video_task_handler video_id).

(** *** [detect_players_task] *)

(** The body of [for box in boxes]: a person above 0.5 confidence opens a
    new track under the key [len(player_tracks)].  The dict [player_tracks]
    only ever receives the keys 0, 1, 2, ... in this order, so it is the
    list of its values and a track's key is its position. *)
Definition add_box (frame_idx : nat) (player_tracks : list Track) (box : Box)
    : list Track :=
  if (cls box =? 0)%Z && Qgtb (conf box) (1 # 2)
  then player_tracks ++ [ {| bbox_history := [xyxy box];
                             confidence_history := [conf box];
                             frame_indices := [frame_idx] |} ]
  else player_tracks.

(** The body of [for result in results], with [boxes is not None]. *)
Definition add_result (frame_idx : nat) (player_tracks : list Track)
    (result : option (list Box)) : list Track :=
  match result with
  | Some boxes => foldl (add_box frame_idx) player_tracks boxes
  | None => player_tracks
  end.

(** The [while cap.isOpened()] loop over the frames [cap.read()] yields. *)
Fixpoint read_frames (frames : list (list (option (list Box))))
    (frame_idx : nat) (player_tracks : list Track) : M (list Track) :=
  match frames with
  | [] => mret player_tracks
  | results :: rest =>
      player_tracks ←
        (if (frame_idx mod 30 =? 0)%nat
         then external "model" (Z.of_nat frame_idx);;
              mret (foldl (add_result frame_idx) player_tracks results)
         else mret player_tracks);
      read_frames rest (S frame_idx) player_tracks
  end.

(** [np.mean] of a non-empty list. *)
Definition mean (l : list Q) : Q :=
  (foldr Qplus 0 l / inject_Z (Z.of_nat (length l)))%Q.

Definition bbox_area (b : Q * Q * Q * Q) : Q :=
  let '(x1, y1, x2, y2) := b in ((x2 - x1) * (y2 - y1))%Q.

(** [for track_id, track_data in player_tracks.items()] *)
Fixpoint create_players (video : Video.t) (track_id : nat)
    (player_tracks : list Track) : M unit :=
  match player_tracks with
  | [] => mret tt
  | track_data :: rest =>
      (if (10 <? length (frame_indices track_data))%nat
       then
         let avg_confidence := mean (confidence_history track_data) in
         let avg_bbox_area := mean (bbox_area <$> bbox_history track_data) in
         let team_color :=
           if (track_id mod 2 =? 0)%nat then "red" else "blue" in
         Player_objects_create (Z.of_nat track_id) (Video.id video)
           (Some (pretty (track_id + 1)%nat)) team_color
           ("track_" +:+ pretty track_id) avg_confidence (Some avg_bbox_area);;
         mret tt
       else mret tt);;
      create_players video (S track_id) rest
  end.

Definition detect_players_task_body (video_id : nat) : M Dict :=
  video ← Video_objects_get video_id;
  video_path ← file_path video;
  external "YOLO" 0;;
  external "cv2.VideoCapture" 0;;
  player_tracks ← read_frames (yolo_frames env video_path) 0 [];
  external "cap.release" 0;;
  create_players video 0 player_tracks;;
  let video := Video.set_status "players_detected" video in
  Video_save "video.save" video;;
  delay "analyze_ball_and_score_task.delay" 0
        (call_analyze_ball_and_score_task (Video.id video));;
  mret [ ("status", VStr "completed");
         ("players_detected", VInt (Z.of_nat (length player_tracks))) ].

Definition detect_players_task (video_id : nat) : M Dict :=
  try_except (detect_players_task_body video_id)
             (video_error_handler video_id "Player detection failed: ").

(** *** [analyze_ball_and_score_task] *)

Definition analyze_ball_and_score_task_body (video_id : nat) : M Dict :=
  video ← Video_objects_get video_id;
  let video := Video.set_status "ball_analyzed" video in
  Video_save "video.save" video;;
  delay "detect_actions_with_mmaction.delay" 0
        (call_detect_actions_with_mmaction (Video.id video)
           "mmaction2_tsn" (1 # 2));;
  mret [ ("status", VStr "completed") ].

Definition analyze_ball_and_score_task (video_id : nat) : M Dict :=
  try_except (analyze_ball_and_score_task_body video_id)
             (video_error_handler video_id "Ball analysis failed: ").

(** *** [detect_actions_with_mmaction] *)

Definition _map_mmaction_label_to_action_type (label_idx : Z) : option string :=
  let mapping : gmap Z string :=
    <[0%Z := "shot_2pt"]> (<[1%Z := "pass"]> (<[2%Z := "dribble"]>
    (<[3%Z := "run"]> (<[4%Z := "jump"]> (<[5%Z := "shot_3pt"]> ∅))))) in
  mapping !! label_idx.

(** [np.argmax]: the first position of the largest score. *)
Fixpoint argmax_from (best_idx : nat) (best : Q) (i : nat) (l : list Q) : nat :=
  match l with
  | [] => best_idx
  | s :: rest =>
      if Qgtb s best then argmax_from i s (S i) rest
      else argmax_from best_idx best (S i) rest
  end.

Definition argmax (scores : list Q) : Res nat :=
  match scores with
  | [] => Raise (ValueError "attempt to get argmax of an empty sequence")
  | s :: rest => Ok (argmax_from 0 s 1 rest)
  end.

(** [a[i]] on an array. *)
Definition index {A : Type} (a : list A) (i : nat) : Res A :=
  match a !! i with
  | Some v => Ok v
  | None => Raise (IndexError "index out of bounds")
  end.

(** Truth value of a setting that is a path or [None]. *)
Definition path_truthy (p : option string) : bool :=
  match p with
  | Some s => negb (bool_decide (s = ""))
  | None => false
  end.

(** The body of [for result in results]; answers whether an action was
    created, that is whether [actions_created] went up. *)
Definition process_result (video : Video.t) (model_type : string)
    (confidence_threshold : Q) (start_time : Z) (end_time : Q)
    (result : Prediction) : M bool :=
  match pred result with
  | None => mret false
  | Some (scores, labels) =>
      top_idx ← lift (argmax scores);
      confidence ← lift (index scores top_idx);
      label_idx ← lift (index labels top_idx);
      if Qgtb confidence confidence_threshold
      then
        match _map_mmaction_label_to_action_type label_idx with
        | Some action_type =>
            if bool_decide (action_type = "") then mret false
            else
              ps ← gets players;
              let players :=
                filter (λ p, Player.video p = Video.id video) ps in
              let player := Player.id <$> head players in
              Action_objects_create start_time
                {| Action.id := 0; Action.video := Video.id video;
                   Action.player := player; Action.type := action_type;
                   Action.start_time := inject_Z start_time;
                   Action.end_time := end_time;
                   Action.is_successful := None;
                   Action.x := None; Action.y := None;
                   Action.model_type := model_type;
                   Action.confidence := confidence;
                   Action.metadata := [("mmaction_label", label_idx)] |};;
              mret true
        | None => mret false
        end
      else mret false
  end.

(** [for result in results], from the counter [actions_created]: the
    counter as the loop left it, and the exception that ended it if any. *)
Fixpoint process_results (video : Video.t) (model_type : string)
    (confidence_threshold : Q) (start_time : Z) (end_time : Q)
    (results : list Prediction) (actions_created : Z) : M (Z * option exn) :=
  match results with
  | [] => mret (actions_created, None)
  | result :: rest =>
      r ← attempt (process_result video model_type confidence_threshold
                     start_time end_time result);
      match r with
      | Ok true =>
          process_results video model_type confidence_threshold start_time
            end_time rest (actions_created + 1)%Z
      | Ok false =>
          process_results video model_type confidence_threshold start_time
            end_time rest actions_created
      | Raise e => mret (actions_created, Some e)
      end
  end.

(** One turn of [for start_time in range(...)]; the inner [try] swallows
    what inference, result handling and [os.remove] raise. *)
Definition process_segment (video : Video.t) (video_path model_type : string)
    (confidence_threshold : Q) (segment_length : Z) (duration : Q)
    (start_time : Z) (actions_created : Z) : M Z :=
  let end_time := py_min (inject_Z (start_time + segment_length)) duration in
  external "clip.subclip" start_time;;
  external "segment.write_videofile" start_time;;
  r ← attempt (external "inference_recognizer" start_time);
  match r with
  | Raise _ => mret actions_created
  | Ok _ =>
      '(actions_created, exc) ←
        process_results video model_type confidence_threshold start_time
          end_time (recognizer_results env video_path start_time)
          actions_created;
      match exc with
      | Some _ => mret actions_created
      | None =>
          _ ← attempt (external "os.remove" start_time);
          mret actions_created
      end
  end.

Fixpoint process_segments (video : Video.t) (video_path model_type : string)
    (confidence_threshold : Q) (segment_length : Z) (duration : Q)
    (starts : list Z) (actions_created : Z) : M Z :=
  match starts with
  | [] => mret actions_created
  | start_time :: rest =>
      actions_created ←
        process_segment video video_path model_type confidence_threshold
          segment_length duration start_time actions_created;
      process_segments video video_path model_type confidence_threshold
        segment_length duration rest actions_created
  end.

Definition detect_actions_with_mmaction_body (video_id : nat)
    (model_type : string) (confidence_threshold : Q) : M Dict :=
  video ← Video_objects_get video_id;
  video_path ← file_path video;
  let config_path := MMACTION2_CONFIG_PATH env in
  let checkpoint_path := MMACTION2_CHECKPOINT_PATH env in
  (if negb (path_truthy config_path) || negb (path_truthy checkpoint_path)
   then raise (Exception "MMAction2 model paths not configured")
   else mret tt);;
  external "init_recognizer" 0;;
  let segment_length := default 3%Z (VIDEO_SEGMENT_LENGTH env) in
  external "VideoFileClip" 0;;
  let duration := clip_duration env video_path in
  starts ← lift (py_range 0 (py_int duration) segment_length);
  actions_created ←
    process_segments video video_path model_type confidence_threshold
      segment_length duration starts 0;
  external "clip.close" 0;;
  let video := Video.set_status "actions_done" video in
  Video_save "video.save" video;;
  delay "calculate_stats_task.delay" 0
        (call_calculate_stats_task (Video.id video));;
  mret [ ("status", VStr "completed");
         ("actions_created", VInt actions_created) ].

Definition detect_actions_with_mmaction (video_id : nat)
    (model_type : string) (confidence_threshold : Q) : M Dict :=
  try_except
    (detect_actions_with_mmaction_body video_id model_type confidence_threshold)
    (video_error_handler video_id "Action detection failed: ").

(** *** [calculate_stats_task] *)

(** The body of [for action in actions]. *)
Definition count_action (stats : Stats.t) (action : Action.t) : Stats.t :=
  let type := Action.type action in
  let is_successful := bool_decide (Action.is_successful action = Some true) in
  if bool_decide (type = "shot_2pt") then
    let stats := Stats.set_fga_2pt (Stats.fga_2pt stats + 1)%Z stats in
    if is_successful
    then Stats.set_fgm_2pt (Stats.fgm_2pt stats + 1)%Z stats else stats
  else if bool_decide (type = "shot_3pt") then
    let stats := Stats.set_fga_3pt (Stats.fga_3pt stats + 1)%Z stats in
    if is_successful
    then Stats.set_fgm_3pt (Stats.fgm_3pt stats + 1)%Z stats else stats
  else if bool_decide (type = "free_throw") then
    let stats := Stats.set_fta (Stats.fta stats + 1)%Z stats in
    if is_successful
    then Stats.set_ftm (Stats.ftm stats + 1)%Z stats else stats
  else if bool_decide (type = "assist") then
    Stats.set_assists (Stats.assists stats + 1)%Z stats
  else if bool_decide (type ∈ ["rebound_offensive"; "rebound_defensive"]) then
    if bool_decide (type = "rebound_offensive")
    then Stats.set_offensive_rebounds (Stats.offensive_rebounds stats + 1)%Z stats
    else Stats.set_defensive_rebounds (Stats.defensive_rebounds stats + 1)%Z stats
  else if bool_decide (type = "steal") then
    Stats.set_steals (Stats.steals stats + 1)%Z stats
  else if bool_decide (type = "block") then
    Stats.set_blocks (Stats.blocks stats + 1)%Z stats
  else if bool_decide (type = "turnover") then
    Stats.set_turnovers (Stats.turnovers stats + 1)%Z stats
  else if bool_decide (type = "foul") then
    Stats.set_fouls (Stats.fouls stats + 1)%Z stats
  else stats.

(** [video.duration / 60 if video.duration else 0] *)
Definition minutes_of (video : Video.t) : Q :=
  match Video.duration video with
  | Some d => if Qeq_bool d 0 then 0%Q else (d / 60)%Q
  | None => 0%Q
  end.

(** The body of [for player in players]. *)
Definition player_stats (video : Video.t) (player : Player.t) : M unit :=
  stats ← Stats_objects_create (Z.of_nat (Player.id player))
            (Video.id video) (Player.id player);
  acts ← gets actions;
  let actions :=
    filter (λ a, Action.video a = Video.id video
                 ∧ Action.player a = Some (Player.id player)) acts in
  let stats := foldl count_action stats actions in
  let stats := Stats.set_minutes_played (minutes_of video) stats in
  Stats_save (Z.of_nat (Player.id player)) stats;;
  mret tt.

Fixpoint for_players (video : Video.t) (players : list Player.t) : M unit :=
  match players with
  | [] => mret tt
  | player :: rest => player_stats video player;; for_players video rest
  end.

Definition calculate_stats_task_body (video_id : nat) : M Dict :=
  video ← Video_objects_get video_id;
  ps ← gets players;
  let players := filter (λ p, Player.video p = Video.id video) ps in
  for_players video players;;
  let video := Video.set_status "highlights_created" video in
  Video_save "video.save" video;;
  delay "auto_generate_highlights_task.delay" 0
        (call_auto_generate_highlights_task (Video.id video));;
  mret [ ("status", VStr "completed");
         ("stats_created", VInt (Z.of_nat (length players))) ].

Definition calculate_stats_task (video_id : nat) : M Dict :=
  try_except (calculate_stats_task_body video_id)
             (video_error_handler video_id "Stats calculation failed: ").

(** *** [auto_generate_highlights_task] *)

Definition highlight_types : list (string * Q * Q) :=
  [ ("best_plays", 8 # 10, 60);
    ("shooting_highlights", 7 # 10, 45);
    ("defensive_highlights", 7 # 10, 30) ]%Q.

(** [for highlight_type, min_confidence, max_duration in highlight_types];
    [k] counts the turns. *)
Fixpoint for_highlight_types (video : Video.t) (k : Z)
    (types : list (string * Q * Q)) : M unit :=
  match types with
  | [] => mret tt
  | (highlight_type, min_confidence, max_duration) :: rest =>
      highlight ← Highlight_objects_create k
        {| Highlight.id := 0; Highlight.video := Video.id video;
           Highlight.player := None;
           Highlight.title :=
             "Auto-generated "
               +:+ py_title (replace_char "_" " " highlight_type);
           Highlight.description := None;
           Highlight.highlight_type := highlight_type;
           Highlight.file := ""; Highlight.duration := None;
           Highlight.min_confidence := min_confidence;
           Highlight.max_duration := max_duration;
           Highlight.is_processing := true;
           Highlight.processing_error := None;
           Highlight.view_count := 0; Highlight.download_count := 0 |};
      delay "create_highlight_video.delay" k
            (call_create_highlight_video (Highlight.id highlight));;
      for_highlight_types video (k + 1) rest
  end.

Definition auto_generate_highlights_task_body (video_id : nat) : M Dict :=
  video ← Video_objects_get video_id;
  for_highlight_types video 0 highlight_types;;
  let video := Video.set_status "done" video in
  let video := Video.set_processing_completed_at (Some (now env)) video in
  Video_save "video.save" video;;
  mret [ ("status", VStr "completed");
         ("highlights_created", VInt (Z.of_nat (length highlight_types))) ].

Definition auto_generate_highlights_task_handler (e : exn) : M Dict :=
  mret (error_dict (str e)).

Definition auto_generate_highlights_task (video_id : nat) : M Dict :=
  try_except (auto_generate_highlights_task_body video_id)
             auto_generate_highlights_task_handler.

(** *** [create_highlight_video] *)

(** A sub-clip cut for an action: the action's key and the cut times. *)
Record Clip : Type := mk_Clip {
  clip_action : nat;
  clip_start : Q;
  clip_end : Q
}.

Definition clip_length (c : Clip) : Q := (clip_end c - clip_start c)%Q.

(** [order_by('-confidence')]: [a] may come before [b]. *)
Definition by_confidence_desc (a b : Action.t) : Prop :=
  Qle_bool (Action.confidence b) (Action.confidence a) = true.

#[global] Instance by_confidence_desc_dec a b :
  Decision (by_confidence_desc a b).
Proof. unfold by_confidence_desc. apply _. Defined.

(** The QuerySet the task builds, as the list it is read as. *)
Definition candidate_actions (highlight : Highlight.t) (video : Video.t)
    (acts : list Action.t) : list Action.t :=
  let actions :=
    filter (λ a, Action.video a = Video.id video
                 ∧ Qgeb (Action.confidence a)
                        (Highlight.min_confidence highlight) = true) acts in
  let type_in (types : list string) :=
    filter (λ a, Action.type a ∈ types) actions in
  let actions :=
    if bool_decide (Highlight.highlight_type highlight = "shooting_highlights")
    then type_in ["shot_2pt"; "shot_3pt"; "dunk"; "layup"; "free_throw"]
    else if bool_decide
              (Highlight.highlight_type highlight = "defensive_highlights")
    then type_in ["block"; "steal"; "rebound_defensive"]
    else if bool_decide (Highlight.highlight_type highlight = "best_plays")
    then type_in ["shot_3pt"; "dunk"; "assist"; "steal"; "block"]
    else actions in
  let actions :=
    match Highlight.player highlight with
    | Some p => filter (λ a, Action.player a = Some p) actions
    | None => actions
    end in
  merge_sort by_confidence_desc actions.

(** [highlight.actions.add(action)] *)
Definition Highlight_actions_add (highlight : Highlight.t) (action : Action.t)
    : M unit :=
  external "highlight.actions.add" (Z.of_nat (Action.id action));;
  modify (set_highlight_actions (λ l,
    let row := (Highlight.id highlight, Action.id action) in
    if bool_decide (row ∈ l) then l else l ++ [row])).

(** [for action in actions], from the clips gathered so far and their
    [total_duration]. *)
Fixpoint select_clips (highlight : Highlight.t) (video_clip_duration : Q)
    (actions : list Action.t) (clips : list Clip) (total_duration : Q)
    : M (list Clip * Q) :=
  match actions with
  | [] => mret (clips, total_duration)
  | action :: rest =>
      if Qgeb total_duration (Highlight.max_duration highlight)
      then mret (clips, total_duration)
      else
        let buffer := 1%Q in
        let start := py_max 0 (Action.start_time action - buffer) in
        let end_ :=
          py_min video_clip_duration (Action.end_time action + buffer) in
        let clip_duration := (end_ - start)%Q in
        if Qle_bool (total_duration + clip_duration)
                    (Highlight.max_duration highlight)
        then
          external "video_clip.subclip" (Z.of_nat (Action.id action));;
          Highlight_actions_add highlight action;;
          select_clips highlight video_clip_duration rest
            (clips ++ [ {| clip_action := Action.id action;
                           clip_start := start; clip_end := end_ |} ])
            (total_duration + clip_duration)%Q
        else
          select_clips highlight video_clip_duration rest clips total_duration
  end.

(** [for clip in clips: clip.close()] *)
Fixpoint close_clips (clips : list Clip) : M unit :=
  match clips with
  | [] => mret tt
  | clip :: rest =>
      external "clip.close" (Z.of_nat (clip_action clip));;
      close_clips rest
  end.

Definition highlight_path (highlight_id : nat) : string :=
  "highlights/" +:+ today env +:+ "/highlight_" +:+ pretty highlight_id
    +:+ ".mp4".

Definition create_highlight_video_body (highlight_id : nat) : M Dict :=
  highlight ← Highlight_objects_get highlight_id;
  video ← Video_objects_get (Highlight.video highlight);
  video_path ← file_path video;
  external "VideoFileClip" 0;;
  acts ← gets actions;
  let actions := candidate_actions highlight video acts in
  '(clips, total_duration) ←
    select_clips highlight (clip_duration env video_path) actions [] 0%Q;
  (match clips with
   | _ :: _ =>
       external "concatenate_videoclips" 0;;
       external "os.makedirs" 0;;
       external "final_clip.write_videofile" 0;;
       let highlight :=
         Highlight.set_file (highlight_path highlight_id) highlight in
       let highlight :=
         Highlight.set_duration (Some total_duration) highlight in
       let highlight := Highlight.set_is_processing false highlight in
       Highlight_save "highlight.save" highlight;;
       external "final_clip.close" 0;;
       close_clips clips
   | [] => mret tt
   end);;
  external "video_clip.close" 0;;
  mret [ ("status", VStr "completed"); ("duration", VNum total_duration) ].

Definition create_highlight_video_handler (highlight_id : nat) (e : exn)
    : M Dict :=
  highlight ← Highlight_objects_get highlight_id;
  let highlight := Highlight.set_is_processing false highlight in
  let highlight := Highlight.set_processing_error (Some (str e)) highlight in
  Highlight_save "except: highlight.save" highlight;;
  mret (error_dict (str e)).

Definition create_highlight_video (highlight_id : nat) : M Dict :=
  try_except (create_highlight_video_body highlight_id)
             (create_highlight_video_handler highlight_id).

(** *** The tasks as the worker sees them *)

(** The [try] block of a task. *)
Definition body (c : Call) : M Dict :=
  match c with
  | call_process_video_task v => process_video_task_body v
  | call_detect_players_task v => detect_players_task_body v
  | call_analyze_ball_and_score_task v => analyze_ball_and_score_task_body v
  | call_detect_actions_with_mmaction v m t =>
      detect_actions_with_mmaction_body v m t
  | call_calculate_stats_task v => calculate_stats_task_body v
  | call_auto_generate_highlights_task v => auto_generate_highlights_task_body v
  | call_create_highlight_video h => create_highlight_video_body h
  end.

(** Running a call. *)
Definition run (c : Call) : M Dict :=
  match c with
  | call_process_video_task v => process_video_task v
  | call_detect_players_task v => detect_players_task v
  | call_analyze_ball_and_score_task v => analyze_ball_and_score_task v
  | call_detect_actions_with_mmaction v m t =>
      detect_actions_with_mmaction v m t
  | call_calculate_stats_task v => calculate_stats_task v
  | call_auto_generate_highlights_task v => auto_generate_highlights_task v
  | call_create_highlight_video h => create_highlight_video h
  end.

(** A worker that takes calls off the queue, oldest first, [n] times; it
    answers with what each call returned or raised. *)
Fixpoint worker (n : nat) (w : World) : list (Call * Res Dict) * World :=
  match n with
  | O => ([], w)
  | S n' =>
      match queue w with
      | [] => ([], w)
      | c :: q =>
          let '(r, w') := run c (set_queue (λ _, q) w) in
          let '(log, w'') := worker n' w' in
          ((c, r) :: log, w'')
      end
  end.

End with_env.
End tasks.
(** ** Deleting a video *)

(** [VideoViewSet] is a [ModelViewSet]: its [destroy] calls
    [video.delete()], and the ORM follows the [on_delete] argument of every
    [ForeignKey] that points, directly or through collected rows, at the
    deleted row.  The policies below are the ones the models declare; the
    tables behind a [ManyToManyField] always cascade. *)
Module orm.

Inductive OnDelete : Type := CASCADE | DO_NOTHING.

Definition Player_video : OnDelete := CASCADE.
Definition Action_video : OnDelete := CASCADE.
Definition Action_player : OnDelete := CASCADE.
Definition Highlight_video : OnDelete := CASCADE.
Definition Highlight_player : OnDelete := CASCADE.
Definition Stats_video : OnDelete := CASCADE.
Definition Stats_player : OnDelete := CASCADE.

(** Does a row whose foreign key has policy [p] go when the row it points
    at goes? *)
Definition follows (p : OnDelete) (points_at_deleted : bool) : bool :=
  match p with
  | CASCADE => points_at_deleted
  | DO_NOTHING => false
  end.

Definition mem (i : nat) (l : list nat) : bool := bool_decide (i ∈ l).

Definition mem_opt (i : option nat) (l : list nat) : bool :=
  match i with
  | Some i => mem i l
  | None => false
  end.

(** The rows the collector gathers when the video [video_id] is deleted. *)
Definition player_goes (video_id : nat) (p : Player.t) : bool :=
  follows Player_video (Player.video p =? video_id)%nat.

Definition gone_players (video_id : nat) (w : World) : list nat :=
  Player.id <$> filter (λ p, player_goes video_id p = true) (players w).

Definition action_goes (video_id : nat) (w : World) (a : Action.t) : bool :=
  follows Action_video (Action.video a =? video_id)%nat
  || follows Action_player (mem_opt (Action.player a) (gone_players video_id w)).

Definition gone_actions (video_id : nat) (w : World) : list nat :=
  Action.id <$> filter (λ a, action_goes video_id w a = true) (actions w).

Definition highlight_goes (video_id : nat) (w : World) (h : Highlight.t)
    : bool :=
  follows Highlight_video (Highlight.video h =? video_id)%nat
  || follows Highlight_player
       (mem_opt (Highlight.player h) (gone_players video_id w)).

Definition gone_highlights (video_id : nat) (w : World) : list nat :=
  Highlight.id <$>
    filter (λ h, highlight_goes video_id w h = true) (highlights w).

Definition stats_goes (video_id : nat) (w : World) (s : Stats.t) : bool :=
  follows Stats_video (Stats.video s =? video_id)%nat
  || follows Stats_player (mem (Stats.player s) (gone_players video_id w)).

Definition join_row_goes (video_id : nat) (w : World) (r : nat * nat) : bool :=
  mem (fst r) (gone_highlights video_id w)
  || mem (snd r) (gone_actions video_id w).

(** [video.delete()] *)
Definition Video_delete (video_id : nat) (w : World) : World :=
  {| videos := filter (λ v, Video.id v ≠ video_id) (videos w);
     players := filter (λ p, player_goes video_id p = false) (players w);
     actions := filter (λ a, action_goes video_id w a = false) (actions w);
     highlights :=
       filter (λ h, highlight_goes video_id w h = false) (highlights w);
     highlight_actions :=
       filter (λ r, join_row_goes video_id w r = false) (highlight_actions w);
     stats := filter (λ s, stats_goes video_id w s = false) (stats w);
     queue := queue w |}.

(** Every foreign key of every row points at a row that is there. *)
Record consistent (w : World) : Prop := {
  player_video_ok :
    ∀ p, p ∈ players w → Player.video p ∈ Video.id <$> videos w;
  action_video_ok :
    ∀ a, a ∈ actions w → Action.video a ∈ Video.id <$> videos w;
  action_player_ok :
    ∀ a p, a ∈ actions w → Action.player a = Some p →
           p ∈ Player.id <$> players w;
  highlight_video_ok :
    ∀ h, h ∈ highlights w → Highlight.video h ∈ Video.id <$> videos w;
  highlight_player_ok :
    ∀ h p, h ∈ highlights w → Highlight.player h = Some p →
           p ∈ Player.id <$> players w;
  stats_video_ok :
    ∀ s, s ∈ stats w → Stats.video s ∈ Video.id <$> videos w;
  stats_player_ok :
    ∀ s, s ∈ stats w → Stats.player s ∈ Player.id <$> players w;
  join_highlight_ok :
    ∀ r, r ∈ highlight_actions w → fst r ∈ Highlight.id <$> highlights w;
  join_action_ok :
    ∀ r, r ∈ highlight_actions w → snd r ∈ Action.id <$> actions w
}.

End orm.

(** ** Concrete inputs

    Small rows, worlds and environments on which the definitions above are
    evaluated. *)
Module samples.

(** A manual annotation of 31 seconds: start at 0, end at 31. *)
Definition long_action : ActionCreateSerializer.data :=
  {| ActionCreateSerializer.video := 1;
     ActionCreateSerializer.player := None;
     ActionCreateSerializer.type := "pass";
     ActionCreateSerializer.start_time := float_of_int 0;
     ActionCreateSerializer.end_time := float_of_int 31;
     ActionCreateSerializer.is_successful := None;
     ActionCreateSerializer.x := None;
     ActionCreateSerializer.y := None |}.

(** A manual annotation from [start_time] to [end_time], each given as a
    decimal literal in tenths of a second. *)
Definition annotation (start_tenths end_tenths : Z)
    : ActionCreateSerializer.data :=
  {| ActionCreateSerializer.video := 1;
     ActionCreateSerializer.player := None;
     ActionCreateSerializer.type := "pass";
     ActionCreateSerializer.start_time := float_of_decimal start_tenths 10;
     ActionCreateSerializer.end_time := float_of_decimal end_tenths 10;
     ActionCreateSerializer.is_successful := None;
     ActionCreateSerializer.x := None;
     ActionCreateSerializer.y := None |}.

(** A ten-second video, key 1, under a given status. *)
Definition video1 (status : string) : Video.t :=
  {| Video.id := 1; Video.user := 1;
     Video.file := "videos/2024/01/15/game.mp4";
     Video.upload_date := 1705312800; Video.status := status;
     Video.duration := Some 10%Q; Video.fps := Some 30%Q;
     Video.width := Some 1280%Z; Video.height := Some 720%Z;
     Video.error_message := None; Video.processing_started_at := None;
     Video.processing_completed_at := None |}.

Definition world_of (vs : list Video.t) (q : list Call) : World :=
  {| videos := vs; players := []; actions := []; highlights := [];
     highlight_actions := []; stats := []; queue := q |}.

(** The video just uploaded, with its processing requested. *)
Definition uploaded : World :=
  world_of [video1 "uploaded"] [call_process_video_task 1].

(** The video as [calculate_stats_task] leaves it. *)
Definition stats_done : World :=
  world_of [video1 "highlights_created"]
           [call_auto_generate_highlights_task 1].

(** No video at all. *)
Definition empty : World := world_of [] [].

(** An environment in which every call goes through: one person in the
    first frame, and in every three-second segment a three-pointer whose
    score is 0.9 at the start of the video and drops by 0.1 per segment. *)
Definition no_faults : Env :=
  {| fault := λ _, None;
     now := 1705312900;
     today := "2024/01/15";
     MMACTION2_CONFIG_PATH := Some "configs/tsn.py";
     MMACTION2_CHECKPOINT_PATH := Some "checkpoints/tsn.pth";
     VIDEO_SEGMENT_LENGTH := None;
     yolo_frames := λ _,
       [ [ Some [ {| cls := 0; conf := 9 # 10;
                     xyxy := (10, 20, 110, 220)%Q |} ] ] ];
     clip_duration := λ _, 10%Q;
     recognizer_results := λ _ start_time,
       [ {| pred := Some ([1 # 10; (9 # 10) - inject_Z (start_time / 3) / 10]%Q,
                          [0; 5]%Z) |} ] |}.

(** The same environment, except that the call at [site] raises [msg]. *)
Definition failing_at (site : Site) (msg : string) : Env :=
  {| fault := λ s, if decide (s = site) then Some msg else None;
     now := now no_faults;
     today := today no_faults;
     MMACTION2_CONFIG_PATH := MMACTION2_CONFIG_PATH no_faults;
     MMACTION2_CHECKPOINT_PATH := MMACTION2_CHECKPOINT_PATH no_faults;
     VIDEO_SEGMENT_LENGTH := VIDEO_SEGMENT_LENGTH no_faults;
     yolo_frames := yolo_frames no_faults;
     clip_duration := clip_duration no_faults;
     recognizer_results := recognizer_results no_faults |}.

(** The database refuses the first highlight row. *)
Definition highlight_insert_fails : Env :=
  failing_at ("Highlight.objects.create", 0%Z)
    "NOT NULL constraint failed: highlights_highlight.duration".

(** The detector cannot be loaded. *)
Definition yolo_fails : Env :=
  failing_at ("YOLO", 0%Z) "yolov8n.pt not found".

(** The status of video 1 after each of the next [n] calls the worker
    takes. *)
Fixpoint status_trace (env : Env) (n : nat) (w : World)
    : list (option string) :=
  match n with
  | O => []
  | S n' =>
      let w' := (tasks.worker env 1 w).2 in
      (Video.status <$> lookup_id Video.id 1 (videos w'))
        :: status_trace env n' w'
  end.

(** A highlight row waiting for its clip: no file yet, and a duration of 0
    for the table to take the row. *)
Definition waiting_highlight (id : nat) (highlight_type : string)
    (min_confidence max_duration : Q) : Highlight.t :=
  {| Highlight.id := id; Highlight.video := 1; Highlight.player := None;
     Highlight.title := "Highlight " +:+ pretty id;
     Highlight.description := None;
     Highlight.highlight_type := highlight_type;
     Highlight.file := ""; Highlight.duration := Some 0%Q;
     Highlight.min_confidence := min_confidence;
     Highlight.max_duration := max_duration;
     Highlight.is_processing := true;
     Highlight.processing_error := None;
     Highlight.view_count := 0; Highlight.download_count := 0 |}.

(** The world once the six video tasks have run without a fault: four
    detected three-pointers.  The last task inserts no highlight; the
    three rows of its settings are put in by hand. *)
Definition processed : World :=
  set_highlights
    (λ _, [ waiting_highlight 1 "best_plays" (8 # 10) 60;
            waiting_highlight 2 "shooting_highlights" (7 # 10) 45;
            waiting_highlight 3 "defensive_highlights" (7 # 10) 30 ])
    (tasks.worker no_faults 6 uploaded).2.

(** Video 1 with four three-pointers and a highlight that has room for
    eight seconds only. *)
Definition tight : World :=
  {| videos := videos processed; players := []; actions := actions processed;
     highlights :=
       [ {| Highlight.id := 9; Highlight.video := 1; Highlight.player := None;
            Highlight.title := "Short cut"; Highlight.description := None;
            Highlight.highlight_type := "shooting_highlights";
            Highlight.file := ""; Highlight.duration := Some 0%Q;
            Highlight.min_confidence := 1 # 2; Highlight.max_duration := 8;
            Highlight.is_processing := true;
            Highlight.processing_error := None;
            Highlight.view_count := 0; Highlight.download_count := 0 |} ];
     highlight_actions := []; stats := []; queue := [] |}.

(** Two videos.  Player 1 was detected in video 1; action 5 lies in video 2
    but is credited to player 1; highlight 8 of video 2 shows actions 5 and
    6. *)
Definition two_videos : World :=
  {| videos := [video1 "done";
                {| Video.id := 2; Video.user := 1;
                   Video.file := "videos/2024/01/16/training.mp4";
                   Video.upload_date := 1705399200; Video.status := "done";
                   Video.duration := Some 20%Q; Video.fps := Some 30%Q;
                   Video.width := Some 1280%Z; Video.height := Some 720%Z;
                   Video.error_message := None;
                   Video.processing_started_at := None;
                   Video.processing_completed_at := None |}];
     players :=
       [ {| Player.id := 1; Player.video := 1;
            Player.jersey_number := Some "23"; Player.team_color := "red";
            Player.player_id_model := "track_0";
            Player.detection_confidence := 9 # 10;
            Player.avg_bbox_area := None |} ];
     actions :=
       [ {| Action.id := 5; Action.video := 2; Action.player := Some 1;
            Action.type := "dunk"; Action.start_time := 2;
            Action.end_time := 4; Action.is_successful := Some true;
            Action.x := None; Action.y := None;
            Action.model_type := "manual_annotation";
            Action.confidence := 1; Action.metadata := [] |};
         {| Action.id := 6; Action.video := 2; Action.player := None;
            Action.type := "block"; Action.start_time := 8;
            Action.end_time := 9; Action.is_successful := None;
            Action.x := None; Action.y := None;
            Action.model_type := "manual_annotation";
            Action.confidence := 1; Action.metadata := [] |} ];
     highlights :=
       [ {| Highlight.id := 8; Highlight.video := 2;
            Highlight.player := None; Highlight.title := "Training";
            Highlight.description := None;
            Highlight.highlight_type := "best_plays";
            Highlight.file := ""; Highlight.duration := Some 0%Q;
            Highlight.min_confidence := 7 # 10;
            Highlight.max_duration := 60; Highlight.is_processing := false;
            Highlight.processing_error := None;
            Highlight.view_count := 0; Highlight.download_count := 0 |} ];
     highlight_actions := [(8, 5); (8, 6)];
     stats := [ Stats.pre_save (Stats.set_id 3 (Stats.new 1 1)) ];
     queue := [] |}.

End samples.

(** ** Predicates of the statements *)

(** The two derived columns agree with the columns they are derived from. *)
Definition stats_row_ok (s : Stats.t) : Prop :=
  Stats.points s = (2 * Stats.fgm_2pt s + 3 * Stats.fgm_3pt s + Stats.ftm s)%Z
  ∧ Stats.rebounds s
    = (Stats.offensive_rebounds s + Stats.defensive_rebounds s)%Z.

(** What a computation may do to the world short of enqueueing: the queue
    is as it was, and the videos and highlights that were there still are. *)
Record frame (w w' : World) : Prop := {
  frame_queue : queue w' = queue w;
  frame_videos : ∀ i, is_Some (lookup_id Video.id i (videos w)) →
                      is_Some (lookup_id Video.id i (videos w'));
  frame_highlights : ∀ i, is_Some (lookup_id Highlight.id i (highlights w)) →
                          is_Some (lookup_id Highlight.id i (highlights w'))
}.

(** [m] never enqueues and never loses a video or a highlight. *)
Definition quiet {A : Type} (m : M A) : Prop :=
  ∀ w r w', m w = (r, w') → frame w w'.

(** What the [try] block of a video task leaves behind: on an exception
    nothing was enqueued and no video was lost; on return the next call is
    the one new entry of the queue and the video carries the task's
    status. *)
Definition video_body_post (video_id : nat) (label : string) (next : Call)
    (w : World) (r : Res Dict) (w' : World) : Prop :=
  match r with
  | Raise e => frame w w'
  | Ok d =>
      queue w' = queue w ++ [next]
      ∧ ∃ video, lookup_id Video.id video_id (videos w') = Some video
                 ∧ Video.status video = label
  end.

(** The row a call works on is there. *)
Definition row_exists (c : Call) (w : World) : Prop :=
  match c with
  | call_create_highlight_video h =>
      is_Some (lookup_id Highlight.id h (highlights w))
  | call_process_video_task v
  | call_detect_players_task v
  | call_analyze_ball_and_score_task v
  | call_detect_actions_with_mmaction v _ _
  | call_calculate_stats_task v
  | call_auto_generate_highlights_task v =>
      is_Some (lookup_id Video.id v (videos w))
  end.

(** The text a task puts before [str(e)] in [error_message]. *)
Definition error_prefix (c : Call) : string :=
  match c with
  | call_detect_players_task _ => "Player detection failed: "
  | call_analyze_ball_and_score_task _ => "Ball analysis failed: "
  | call_detect_actions_with_mmaction _ _ _ => "Action detection failed: "
  | call_calculate_stats_task _ => "Stats calculation failed: "
  | _ => ""
  end.

(** The database write of a task's [except] block. *)
Definition handler_site (c : Call) : Site :=
  match c with
  | call_create_highlight_video _ => ("except: highlight.save", 0%Z)
  | _ => ("except: video.save", 0%Z)
  end.

(** The failure [e] of the call [c] is on its row. *)
Definition error_recorded (c : Call) (e : exn) (w : World) : Prop :=
  match c with
  | call_create_highlight_video h =>
      ∃ row, lookup_id Highlight.id h (highlights w) = Some row
             ∧ Highlight.processing_error row = Some (str e)
             ∧ Highlight.is_processing row = false
  | call_process_video_task v
  | call_detect_players_task v
  | call_analyze_ball_and_score_task v
  | call_detect_actions_with_mmaction v _ _
  | call_calculate_stats_task v
  | call_auto_generate_highlights_task v =>
      ∃ row, lookup_id Video.id v (videos w) = Some row
             ∧ Video.status row = "error"
             ∧ Video.error_message row = Some (error_prefix c +:+ str e)
  end.

(** What a call that went through has put on the queue.  The sixth task
    inserts a highlight without its required duration before it enqueues
    anything: it cannot go through. *)
Definition enqueued (c : Call) (w w' : World) : Prop :=
  match c with
  | call_process_video_task v =>
      queue w' = queue w ++ [call_detect_players_task v]
  | call_detect_players_task v =>
      queue w' = queue w ++ [call_analyze_ball_and_score_task v]
  | call_analyze_ball_and_score_task v =>
      queue w'
      = queue w ++ [call_detect_actions_with_mmaction v "mmaction2_tsn" (1 # 2)]
  | call_detect_actions_with_mmaction v _ _ =>
      queue w' = queue w ++ [call_calculate_stats_task v]
  | call_calculate_stats_task v =>
      queue w' = queue w ++ [call_auto_generate_highlights_task v]
  | call_auto_generate_highlights_task _ => False
  | call_create_highlight_video _ => queue w' = queue w
  end.

(** The selection in the words of its description: the candidates are taken
    in the order given; a clip is added only if the running total plus its
    length stays within [max_duration]; nothing is added once the total
    has reached [max_duration]. *)
Fixpoint budget_selection (max_duration video_clip_duration : Q)
    (candidates : list Action.t) (total : Q) : list tasks.Clip :=
  match candidates with
  | [] => []
  | action :: rest =>
      if Qgeb total max_duration then []
      else
        let clip :=
          {| tasks.clip_action := Action.id action;
             tasks.clip_start := py_max 0 (Action.start_time action - 1);
             tasks.clip_end :=
               py_min video_clip_duration (Action.end_time action + 1) |} in
        if Qle_bool (total + tasks.clip_length clip) max_duration
        then clip :: budget_selection max_duration video_clip_duration rest
                       (total + tasks.clip_length clip)%Q
        else budget_selection max_duration video_clip_duration rest total
  end.


(** ** Further predicates *)

(** Every outcome of [m] relates the world before to the world after. *)
Definition respects {A : Type} (R : relation World) (m : M A) : Prop :=
  ∀ w r w', m w = (r, w') → R w w'.

(** The part [f] of the world is as it was. *)
Definition kept {B : Type} (f : World → B) : relation World :=
  λ w w', f w' = f w.

(** The actions table has only received new rows, all satisfying [P]. *)
Definition actions_extended (P : Action.t → Prop) : relation World :=
  λ w w', ∃ new, actions w' = actions w ++ new ∧ Forall P new.

(** The tables a call leaves as they were, whatever its outcome. *)
Definition untouched (c : Call) (w w' : World) : Prop :=
  match c with
  | call_process_video_task _
  | call_detect_players_task _
  | call_analyze_ball_and_score_task _ =>
      players w' = players w ∧ actions w' = actions w
      ∧ highlights w' = highlights w
      ∧ highlight_actions w' = highlight_actions w ∧ stats w' = stats w
  | call_detect_actions_with_mmaction _ _ _ =>
      players w' = players w ∧ highlights w' = highlights w
      ∧ highlight_actions w' = highlight_actions w ∧ stats w' = stats w
  | call_calculate_stats_task _ =>
      players w' = players w ∧ actions w' = actions w
      ∧ highlights w' = highlights w
      ∧ highlight_actions w' = highlight_actions w
  | call_auto_generate_highlights_task _ => w' = w
  | call_create_highlight_video _ =>
      videos w' = videos w ∧ players w' = players w
      ∧ actions w' = actions w ∧ stats w' = stats w ∧ queue w' = queue w
  end.

(** A track that was seen in one frame only. *)
Definition seen_once (t : Track) : Prop := length (frame_indices t) = 1%nat.


(** ** Counting actions *)

(** The actions of [video] credited to [player]. *)
Definition actions_of (video player : nat) (acts : list Action.t)
    : list Action.t :=
  filter (λ a, Action.video a = video ∧ Action.player a = Some player) acts.

(** How many of [l] have the type [type], and how many of these are marked
    successful. *)
Definition attempts (type : string) (l : list Action.t) : Z :=
  Z.of_nat (length (filter (λ a, Action.type a = type) l)).

Definition made (type : string) (l : list Action.t) : Z :=
  Z.of_nat (length (filter (λ a, Action.type a = type
                                 ∧ Action.is_successful a = Some true) l)).

(** The thirteen columns [calculate_stats_task] counts into, and what they
    should hold for the actions [l]. *)
Definition counters (s : Stats.t) : list Z :=
  [ Stats.fga_2pt s; Stats.fgm_2pt s; Stats.fga_3pt s; Stats.fgm_3pt s;
    Stats.fta s; Stats.ftm s; Stats.assists s;
    Stats.offensive_rebounds s; Stats.defensive_rebounds s;
    Stats.steals s; Stats.blocks s; Stats.turnovers s; Stats.fouls s ].

Definition tally (l : list Action.t) : list Z :=
  [ attempts "shot_2pt" l; made "shot_2pt" l;
    attempts "shot_3pt" l; made "shot_3pt" l;
    attempts "free_throw" l; made "free_throw" l;
    attempts "assist" l;
    attempts "rebound_offensive" l; attempts "rebound_defensive" l;
    attempts "steal" l; attempts "block" l; attempts "turnover" l;
    attempts "foul" l ].

(** The row [calculate_stats_task] stores for [player]: the counters of the
    player's actions in the video, and the two derived columns. *)
Definition stats_row_of (video : nat) (acts : list Action.t)
    (player : Player.t) (s : Stats.t) : Prop :=
  Stats.video s = video
  ∧ Stats.player s = Player.id player
  ∧ counters s = tally (actions_of video (Player.id player) acts)
  ∧ stats_row_ok s
  ∧ Stats.plus_minus s = 0%Z.

(** ** Further concrete inputs *)
Module scenes.

Definition player (id : nat) (track : string) : Player.t :=
  {| Player.id := id; Player.video := 1;
     Player.jersey_number := Some (pretty id);
     Player.team_color := "red"; Player.player_id_model := track;
     Player.detection_confidence := 9 # 10; Player.avg_bbox_area := None |}.

Definition action (id : nat) (player : option nat) (type : string)
    (start_time : Q) (is_successful : option bool) : Action.t :=
  {| Action.id := id; Action.video := 1; Action.player := player;
     Action.type := type; Action.start_time := start_time;
     Action.end_time := (start_time + 2)%Q;
     Action.is_successful := is_successful;
     Action.x := None; Action.y := None;
     Action.model_type := "manual_annotation";
     Action.confidence := 1; Action.metadata := [] |}.

(** Video 1 after action detection, with two players and their annotated
    actions: player 1 makes a two-pointer and a three-pointer, misses a
    two-pointer and gives an assist; player 2 makes a free throw, takes an
    offensive rebound and commits a foul; one block is credited to
    nobody. *)
Definition annotated : World :=
  {| videos := [samples.video1 "actions_done"];
     players := [player 1 "track_0"; player 2 "track_1"];
     actions :=
       [ action 1 (Some 1) "shot_2pt" 0 (Some true);
         action 2 (Some 2) "free_throw" 1 (Some true);
         action 3 (Some 1) "shot_2pt" 2 (Some false);
         action 4 (Some 1) "shot_3pt" 3 (Some true);
         action 5 None "block" 4 None;
         action 6 (Some 2) "rebound_offensive" 5 None;
         action 7 (Some 1) "assist" 6 None;
         action 8 (Some 2) "foul" 7 None ];
     highlights := []; highlight_actions := []; stats := [];
     queue := [call_calculate_stats_task 1] |}.

End scenes.
(** * Properties *)

(** ** Serializer validation *)

Section validation.
Import StatsCreateUpdateSerializer.

(** C4: "made shots ≤ attempts" is enforced by
    [StatsCreateUpdateSerializer.validate]: when one of the three made
    counts exceeds its attempts count, a field left out of the input being
    read as 0, it raises [ValidationError]; otherwise it returns the data
    unchanged. *)
Theorem stats_validate_made_le_attempts (d : data) :
  let exceeds :=
    (get (fgm_2pt d) 0 > get (fga_2pt d) 0
     ∨ get (fgm_3pt d) 0 > get (fga_3pt d) 0
     ∨ get (ftm d) 0 > get (fta d) 0)%Z in
  (exceeds → ∃ msg, validate d = Raise (ValidationError msg))
  ∧ (¬ exceeds → validate d = Ok d).
Proof.
  intros exceeds. unfold exceeds, validate.
  destruct (Z.gtb_spec (get (fgm_2pt d) 0) (get (fga_2pt d) 0)) as [H2|H2];
    [split; [eauto | intros H; exfalso; apply H; lia] |].
  destruct (Z.gtb_spec (get (fgm_3pt d) 0) (get (fga_3pt d) 0)) as [H3|H3];
    [split; [eauto | intros H; exfalso; apply H; lia] |].
  destruct (Z.gtb_spec (get (ftm d) 0) (get (fta d) 0)) as [Hf|Hf];
    [split; [eauto | intros H; exfalso; apply H; lia] |].
  split; [lia | reflexivity].
Qed.

End validation.

Section action_validation.
Import ActionCreateSerializer.

Lemma Qgeb_true (a b : Q) : Qgeb a b = true ↔ (b <= a)%Q.
Proof. unfold Qgeb. apply Qle_bool_iff. Qed.

Lemma Qgtb_true (a b : Q) : Qgtb a b = true ↔ (b < a)%Q.
Proof.
  unfold Qgtb. rewrite negb_true_iff, <- not_true_iff_false, Qle_bool_iff.
  split; [apply Qnot_le_lt | apply Qlt_not_le].
Qed.

Lemma Qltb_true (a b : Q) : Qltb a b = true ↔ (a < b)%Q.
Proof. apply (Qgtb_true b a). Qed.

Lemma Qgeb_false (a b : Q) : Qgeb a b = false ↔ (a < b)%Q.
Proof.
  rewrite <- not_true_iff_false, Qgeb_true.
  split; [apply Qnot_le_lt | apply Qlt_not_le].
Qed.

Lemma Qgtb_false (a b : Q) : Qgtb a b = false ↔ (a <= b)%Q.
Proof.
  unfold Qgtb. rewrite negb_false_iff. apply Qle_bool_iff.
Qed.

(** [a > b] rules out [b >= a]. *)
Lemma float_gt_not_ge (a b : float) :
  float_gt a b = true → float_ge b a = false.
Proof.
  unfold float_gt, float_ge, SFltb, SFleb.
  destruct a as [sa|sa| |sa ma ea], b as [sb|sb| |sb mb eb]; simpl;
    try done; try (by destruct sa); try (by destruct sb);
    try (by destruct sa, sb).
  destruct sa, sb; try done;
    rewrite (Z.compare_antisym eb ea);
    destruct (eb ?= ea)%Z; simpl; try done;
    change (PosDef.Pos.compare_cont Eq ma mb) with (Pos.compare_cont Eq ma mb);
    rewrite (ZC4 ma mb);
    by destruct (Pos.compare_cont Eq mb ma).
Qed.

(** C5, as stated, fails: [validate] raises [ValidationError] on an input
    whose [start_time] is below its [end_time]. *)
Lemma action_validate_raises_with_start_before_end :
  ¬ ((∃ msg, validate samples.long_action = Raise (ValidationError msg))
     ↔ float_ge (start_time samples.long_action)
                (end_time samples.long_action) = true).
Proof.
  intros [H _].
  assert (Hge : float_ge (start_time samples.long_action)
                         (end_time samples.long_action) = true)
    by (apply H; eexists; reflexivity).
  discriminate Hge.
Qed.

(** C5, amended: [validate] raises the [ValidationError] "End time must be
    after start time" exactly when [start_time >= end_time]. *)
Theorem action_validate_end_after_start (d : data) :
  validate d = Raise (ValidationError "End time must be after start time")
  ↔ float_ge (start_time d) (end_time d) = true.
Proof.
  unfold validate.
  destruct (float_ge (start_time d) (end_time d)); [done |].
  split; [| done].
  destruct (float_gt _ _); discriminate.
Qed.

(** C6: on an input whose [end_time] is after its [start_time], [validate]
    raises [ValidationError] exactly when [end_time - start_time], the
    difference as Python computes it on floats, exceeds 30. *)
Theorem action_validate_duration_limit (d : data) :
  float_gt (end_time d) (start_time d) = true →
  ((∃ msg, validate d = Raise (ValidationError msg))
   ↔ float_gt (float_sub (end_time d) (start_time d)) (float_of_int 30)
     = true).
Proof.
  intros Hlt. unfold validate.
  rewrite (float_gt_not_ge _ _ Hlt).
  destruct (float_gt (float_sub _ _) _).
  - split; eauto.
  - split; [intros [msg ?] |]; discriminate.
Qed.

Lemma action_validate_duration_limit_witness :
  float_gt (end_time samples.long_action) (start_time samples.long_action)
  = true
  ∧ ((∃ msg, validate samples.long_action = Raise (ValidationError msg))
     ↔ float_gt (float_sub (end_time samples.long_action)
                           (start_time samples.long_action))
                (float_of_int 30) = true).
Proof.
  split; [reflexivity |].
  apply (action_validate_duration_limit samples.long_action). reflexivity.
Defined.

(** The literals are read as Python reads them: 0.1 and 30.1 are these two
    binary64 values. *)
Example float_of_decimal_tenth :
  float_of_decimal 1 10 = S754_finite false 7205759403792794 (-56)
  ∧ float_of_decimal 301 10 = S754_finite false 8472396798990746 (-48).
Proof. vm_compute. done. Qed.

(** At the boundary the rounding of the difference decides.  From 0.1 to
    30.1 the two floats are more than 30 apart, yet their difference as a
    float is 30.0 and the input passes; from 2.2 to 32.2 the difference as
    a float is 30.000000000000004 and the input is refused. *)
Example action_validate_at_the_boundary :
  validate (samples.annotation 1 301) = Ok (samples.annotation 1 301)
  ∧ float_sub (float_of_decimal 301 10) (float_of_decimal 1 10)
    = float_of_int 30
  ∧ (∃ a b, float_value (float_of_decimal 301 10) = Some a
            ∧ float_value (float_of_decimal 1 10) = Some b
            ∧ (30 < a - b)%Q)
  ∧ validate (samples.annotation 22 322)
    = Raise (ValidationError "Action duration cannot exceed 30 seconds")
  ∧ float_sub (float_of_decimal 322 10) (float_of_decimal 22 10)
    = S754_finite false 8444249301319681 (-48).
Proof.
  split; [vm_compute; reflexivity |]. split; [vm_compute; reflexivity |].
  split; [| split; vm_compute; reflexivity].
  eexists _, _. split; [reflexivity |]. split; [reflexivity |].
  vm_compute. reflexivity.
Qed.

End action_validation.

(** ** [Stats] *)

Lemma pre_save_ok (self : Stats.t) : stats_row_ok (Stats.pre_save self).
Proof. split; simpl; lia. Qed.

Lemma elem_of_save_in {A : Type} (key : A → nat) (r : A) (l : list A) (x : A) :
  x ∈ save_in key r l → x = r ∨ x ∈ l.
Proof.
  induction l as [|y l IH]; simpl.
  - intros ->%list_elem_of_singleton. by left.
  - destruct (key y =? key r)%nat.
    + intros [->|?]%elem_of_cons; [by left | right; by constructor].
    + intros [->|?]%elem_of_cons; [right; by constructor |].
      destruct IH as [?|?]; [done | by left | right; by constructor].
Qed.

Lemma lookup_id_save_in {A : Type} (key : A → nat) (r : A) (l : list A) :
  lookup_id key (key r) (save_in key r l) = Some r.
Proof.
  unfold lookup_id. induction l as [|y l IH]; simpl.
  - by rewrite Nat.eqb_refl.
  - destruct (key y =? key r)%nat eqn:E; simpl.
    + by rewrite Nat.eqb_refl.
    + by rewrite E.
Qed.

Lemma external_inv env name k w r w' :
  tasks.external env name k w = (r, w') →
  w' = w ∧ (r = Ok tt ∧ fault env (name, k) = None
            ∨ ∃ msg, r = Raise (Exception msg)
                     ∧ fault env (name, k) = Some msg).
Proof.
  unfold tasks.external. destruct (fault env (name, k)) as [msg|];
    intros [= <- <-]; split; eauto.
Qed.

(** C8: [Stats.save] recomputes [points] and [rebounds] from the other
    columns whatever they held before, and the row it writes is the
    recomputed one; so does [Stats.objects.create]; hence a table whose rows
    all satisfy the two equations still does after either. *)
Theorem stats_save_recomputes_points_and_rebounds
    (env : Env) (k : Z) (self : Stats.t) (w : World) :
  stats_row_ok (Stats.pre_save self)
  ∧ Stats.set_rebounds (Stats.rebounds self)
      (Stats.set_points (Stats.points self) (Stats.pre_save self)) = self
  ∧ (∀ r w', tasks.Stats_save env k self w = (Ok r, w') →
       r = Stats.pre_save self
       ∧ lookup_id Stats.id (Stats.id self) (stats w') = Some r)
  ∧ (Forall stats_row_ok (stats w) →
     Forall stats_row_ok (stats (tasks.Stats_save env k self w).2))
  ∧ (∀ video player,
       Forall stats_row_ok (stats w) →
       Forall stats_row_ok
         (stats (tasks.Stats_objects_create env k video player w).2)).
Proof.
  split; [apply pre_save_ok |].
  split; [by destruct self |].
  split; [| split].
  - intros r w'. unfold tasks.Stats_save, mbind, M_bind, modify, mret, M_ret.
    destruct (tasks.external env "stats.save" k w) as [[[]|e] w1] eqn:E;
      apply external_inv in E as [-> _]; [| discriminate].
    intros [= <- <-]. split; [done |]. simpl.
    apply (lookup_id_save_in Stats.id (Stats.pre_save self)).
  - intros Hall. unfold tasks.Stats_save, mbind, M_bind, modify, mret, M_ret.
    destruct (tasks.external env "stats.save" k w) as [[[]|e] w1] eqn:E;
      apply external_inv in E as [-> _]; simpl; [| done].
    apply Forall_forall. intros x [->|Hx]%elem_of_save_in.
    + apply pre_save_ok.
    + by eapply Forall_forall in Hall.
  - intros video player Hall.
    unfold tasks.Stats_objects_create, mbind, M_bind, modify, mret, M_ret,
      gets, raise.
    destruct (tasks.external env "Stats.objects.create" k w)
      as [[[]|e] w1] eqn:E;
      apply external_inv in E as [-> _]; simpl; [| done].
    destruct (existsb _ (stats w)); simpl; [done |].
    apply Forall_app. split; [done |].
    apply Forall_singleton. split; simpl; lia.
Qed.

(** C10: [calculate_shooting_percentages] never raises: it returns a dict
    with exactly the keys [fg_pct], [fg2_pct], [fg3_pct] and [ft_pct], and a
    percentage whose attempts count is zero is 0. *)
Theorem shooting_percentages_total (self : Stats.t) :
  ∃ fg fg2 fg3 ft : Q,
    Stats.calculate_shooting_percentages self
    = Ok [ ("fg_pct", VNum fg); ("fg2_pct", VNum fg2);
           ("fg3_pct", VNum fg3); ("ft_pct", VNum ft) ]
    ∧ (Stats.fga_2pt self = 0%Z → fg2 = 0%Q)
    ∧ (Stats.fga_3pt self = 0%Z → fg3 = 0%Q)
    ∧ (Stats.fta self = 0%Z → ft = 0%Q)
    ∧ ((Stats.fga_2pt self + Stats.fga_3pt self)%Z = 0%Z → fg = 0%Q).
Proof.
  unfold Stats.calculate_shooting_percentages, truediv.
  assert (Hpos : ∀ n : Z, (0 <? n)%Z = true → (n =? 0)%Z = false)
    by (intros n ?%Z.ltb_lt; apply Z.eqb_neq; lia).
  destruct (0 <? Stats.fga_2pt self)%Z eqn:E2;
    [rewrite (Hpos _ E2) |];
  (destruct (0 <? Stats.fga_3pt self)%Z eqn:E3;
    [rewrite (Hpos _ E3) |]);
  (destruct (0 <? Stats.fta self)%Z eqn:Ef;
    [rewrite (Hpos _ Ef) |]);
  (destruct (0 <? Stats.fga_2pt self + Stats.fga_3pt self)%Z eqn:Et;
    [rewrite (Hpos _ Et) |]);
  simpl; do 4 eexists; (split; [reflexivity |]);
  repeat split; intros H0; try reflexivity;
  rewrite H0 in *; discriminate.
Qed.

(** ** Deleting a video *)

Section cascade.
Import orm.

Lemma key_survives {A : Type} (key : A → nat) (goes : A → bool)
    (l : list A) (i : nat) :
  i ∈ key <$> l →
  i ∉ key <$> filter (λ x, goes x = true) l →
  i ∈ key <$> filter (λ x, goes x = false) l.
Proof.
  intros (x & -> & Hx)%list_elem_of_fmap Hgone.
  apply list_elem_of_fmap. exists x. split; [done |].
  apply list_elem_of_filter. split; [| done].
  destruct (goes x) eqn:E; [| done].
  exfalso. apply Hgone, list_elem_of_fmap_2, list_elem_of_filter. done.
Qed.

Lemma video_survives (video_id i : nat) (w : World) :
  i ∈ Video.id <$> videos w → i ≠ video_id →
  i ∈ Video.id <$> videos (Video_delete video_id w).
Proof.
  intros (v & -> & Hv)%list_elem_of_fmap Hne. simpl.
  apply list_elem_of_fmap_2, list_elem_of_filter. done.
Qed.

Lemma mem_false (i : nat) (l : list nat) : mem i l = false → i ∉ l.
Proof. unfold mem. by intros ?%bool_decide_eq_false. Qed.

Lemma kept_player (video_id : nat) (w : World) (p : Player.t) :
  p ∈ players (Video_delete video_id w) →
  p ∈ players w ∧ Player.video p ≠ video_id.
Proof.
  simpl. intros [Hgo Hp]%list_elem_of_filter. split; [done |].
  unfold player_goes in Hgo. simpl in Hgo. by apply Nat.eqb_neq.
Qed.

Lemma kept_action (video_id : nat) (w : World) (a : Action.t) :
  a ∈ actions (Video_delete video_id w) →
  a ∈ actions w ∧ Action.video a ≠ video_id
  ∧ (∀ p, Action.player a = Some p → p ∉ gone_players video_id w).
Proof.
  simpl. intros [Hgo Ha]%list_elem_of_filter. split; [done |].
  unfold action_goes in Hgo. simpl in Hgo.
  apply orb_false_iff in Hgo as [Hv Hp]. split; [by apply Nat.eqb_neq |].
  intros p Hap. rewrite Hap in Hp. by apply mem_false.
Qed.

Lemma kept_highlight (video_id : nat) (w : World) (h : Highlight.t) :
  h ∈ highlights (Video_delete video_id w) →
  h ∈ highlights w ∧ Highlight.video h ≠ video_id
  ∧ ∀ p, Highlight.player h = Some p → p ∉ gone_players video_id w.
Proof.
  simpl. intros [Hgo Hh]%list_elem_of_filter. split; [done |].
  unfold highlight_goes in Hgo. simpl in Hgo.
  apply orb_false_iff in Hgo as [Hv Hp]. split; [by apply Nat.eqb_neq |].
  intros p Hhp. rewrite Hhp in Hp. by apply mem_false.
Qed.

Lemma kept_stats (video_id : nat) (w : World) (s : Stats.t) :
  s ∈ stats (Video_delete video_id w) →
  s ∈ stats w ∧ Stats.video s ≠ video_id
  ∧ (Stats.player s ∉ gone_players video_id w).
Proof.
  simpl. intros [Hgo Hs]%list_elem_of_filter. split; [done |].
  unfold stats_goes in Hgo. simpl in Hgo.
  apply orb_false_iff in Hgo as [Hv Hp]. split; [by apply Nat.eqb_neq |].
  by apply mem_false.
Qed.

Lemma kept_join_row (video_id : nat) (w : World) (r : nat * nat) :
  r ∈ highlight_actions (Video_delete video_id w) →
  r ∈ highlight_actions w
  ∧ (fst r ∉ gone_highlights video_id w) ∧ (snd r ∉ gone_actions video_id w).
Proof.
  simpl. intros [Hgo Hr]%list_elem_of_filter. split; [done |].
  unfold join_row_goes in Hgo.
  apply orb_false_iff in Hgo as [Hh Ha]. split; by apply mem_false.
Qed.

Lemma player_key_survives (video_id i : nat) (w : World) :
  i ∈ Player.id <$> players w → i ∉ gone_players video_id w →
  i ∈ Player.id <$> players (Video_delete video_id w).
Proof. apply key_survives. Qed.

(** C7: deleting a video removes it and every Player, Action, Highlight and
    Stats row whose [video] key is that video, keeps the other videos, and
    leaves every remaining foreign key pointing at a remaining row. *)
Theorem video_delete_cascades (video_id : nat) (w : World) :
  let w' := Video_delete video_id w in
  (video_id ∉ Video.id <$> videos w')
  ∧ (∀ v, v ∈ videos w → Video.id v ≠ video_id → v ∈ videos w')
  ∧ (∀ p, p ∈ players w' → Player.video p ≠ video_id)
  ∧ (∀ a, a ∈ actions w' → Action.video a ≠ video_id)
  ∧ (∀ h, h ∈ highlights w' → Highlight.video h ≠ video_id)
  ∧ (∀ s, s ∈ stats w' → Stats.video s ≠ video_id)
  ∧ (consistent w → consistent w').
Proof.
  intros w'. subst w'. repeat split.
  - intros (v & Hid & [Hne _]%list_elem_of_filter)%list_elem_of_fmap. done.
  - intros v Hv Hne. simpl. by apply list_elem_of_filter.
  - intros p Hp. by apply kept_player in Hp as [_ ?].
  - intros a Ha. by apply kept_action in Ha as (_ & ? & _).
  - intros h Hh. by apply kept_highlight in Hh as (_ & ? & _).
  - intros s Hs. by apply kept_stats in Hs as (_ & ? & _).
  - intros p [Hp Hne]%kept_player.
    apply video_survives; [by apply H | done].
  - intros a (Ha & Hne & _)%kept_action.
    apply video_survives; [by apply H | done].
  - intros a p (Ha & _ & Hp)%kept_action Hap.
    apply player_key_survives; [by eapply (action_player_ok _ H) | by apply Hp].
  - intros h (Hh & Hne & _)%kept_highlight.
    apply video_survives; [by apply H | done].
  - intros h p (Hh & _ & Hp)%kept_highlight Hhp.
    apply player_key_survives;
      [by eapply (highlight_player_ok _ H) | by apply Hp].
  - intros s (Hs & Hne & _)%kept_stats.
    apply video_survives; [by apply H | done].
  - intros s (Hs & _ & Hp)%kept_stats.
    apply player_key_survives; [by apply H | done].
  - intros r (Hr & Hh & _)%kept_join_row.
    apply (key_survives Highlight.id (highlight_goes video_id w));
      [by apply H | done].
  - intros r (Hr & _ & Ha)%kept_join_row.
    apply (key_survives Action.id (action_goes video_id w));
      [by apply H | done].
Qed.

(** Deleting video 1 takes its player with it, and with the player the
    action of video 2 that was credited to him and the row that put this
    action into a highlight; video 2, its other action and its highlight
    stay. *)
Example delete_video_follows_players :
  let w' := Video_delete 1 samples.two_videos in
  Video.id <$> videos w' = [2]
  ∧ players w' = [] ∧ stats w' = []
  ∧ Action.id <$> actions w' = [6]
  ∧ Highlight.id <$> highlights w' = [8]
  ∧ highlight_actions w' = [(8, 6)].
Proof. vm_compute. done. Qed.

End cascade.

(** ** Reasoning about tasks *)

Lemma bind_inv {A B : Type} (m : M A) (f : A → M B) w r w' :
  (m ≫= f) w = (r, w') →
  (∃ a w1, m w = (Ok a, w1) ∧ f a w1 = (r, w'))
  ∨ (∃ e, m w = (Raise e, w') ∧ r = Raise e).
Proof.
  unfold mbind, M_bind. destruct (m w) as [[a|e] w1].
  - intros H. left. eauto.
  - intros [= <- <-]. right. eauto.
Qed.

Lemma bind_ok {A B : Type} (m : M A) (f : A → M B) w a w1 :
  m w = (Ok a, w1) → (m ≫= f) w = f a w1.
Proof. unfold mbind, M_bind. by intros ->. Qed.

Lemma bind_raise {A B : Type} (m : M A) (f : A → M B) w e w1 :
  m w = (Raise e, w1) → (m ≫= f) w = (Raise e, w1).
Proof. unfold mbind, M_bind. by intros ->. Qed.

Lemma try_except_inv {A : Type} (body : M A) (handler : exn → M A) w r w' :
  try_except body handler w = (r, w') →
  (∃ a, body w = (Ok a, w') ∧ r = Ok a)
  ∨ (∃ e w1, body w = (Raise e, w1) ∧ handler e w1 = (r, w')).
Proof.
  unfold try_except. destruct (body w) as [[a|e] w1].
  - intros [= <- <-]. left. eauto.
  - intros H. right. eauto.
Qed.

Lemma lookup_id_key {A : Type} (key : A → nat) (i : nat) (l : list A) (r : A) :
  lookup_id key i l = Some r → key r = i ∧ r ∈ l.
Proof.
  unfold lookup_id. induction l as [|x l IH]; simpl; [done |].
  destruct (key x =? i)%nat eqn:E.
  - intros [= ->]. split; [by apply Nat.eqb_eq | by constructor].
  - intros [? ?]%IH. split; [done | by constructor].
Qed.

Lemma lookup_id_save_in_is_Some {A : Type} (key : A → nat) (r : A)
    (l : list A) (i : nat) :
  is_Some (lookup_id key i l) → is_Some (lookup_id key i (save_in key r l)).
Proof.
  unfold lookup_id. induction l as [|x l IH]; simpl.
  - by intros [? ?].
  - destruct (key x =? i)%nat eqn:E.
    + intros _. destruct (key x =? key r)%nat eqn:E'; simpl.
      * apply Nat.eqb_eq in E, E'. rewrite <- E', E, Nat.eqb_refl. eauto.
      * rewrite E. eauto.
    + intros H. destruct (key x =? key r)%nat eqn:E'; simpl.
      * apply Nat.eqb_eq in E'. rewrite <- E', E. done.
      * rewrite E. by apply IH.
Qed.

Lemma lookup_id_app_is_Some {A : Type} (key : A → nat) (l l' : list A)
    (i : nat) :
  is_Some (lookup_id key i l) → is_Some (lookup_id key i (l ++ l')).
Proof.
  unfold lookup_id. intros [r Hr]. exists r.
  induction l as [|x l IH]; simpl in *; [done |].
  destruct (key x =? i)%nat; [done | by apply IH].
Qed.

#[global] Instance frame_refl : Reflexive frame.
Proof. intros w. by split. Qed.

#[global] Instance frame_trans : Transitive frame.
Proof.
  intros w1 w2 w3 [Hq Hv Hh] [Hq' Hv' Hh']. split.
  - by rewrite Hq'.
  - intros i ?. by apply Hv', Hv.
  - intros i ?. by apply Hh', Hh.
Qed.

Lemma quiet_ret {A : Type} (a : A) : quiet (mret a).
Proof. intros w r w' [= <- <-]. reflexivity. Qed.

Lemma quiet_raise {A : Type} (e : exn) : quiet (raise e : M A).
Proof. intros w r w' [= <- <-]. reflexivity. Qed.

Lemma quiet_lift {A : Type} (x : Res A) : quiet (lift x).
Proof. intros w r w' [= <- <-]. reflexivity. Qed.

Lemma quiet_gets {A : Type} (f : World → A) : quiet (gets f).
Proof. intros w r w' [= <- <-]. reflexivity. Qed.

Lemma quiet_bind {A B : Type} (m : M A) (f : A → M B) :
  quiet m → (∀ a, quiet (f a)) → quiet (m ≫= f).
Proof.
  intros Hm Hf w r w' [(a & w1 & H1 & H2)|(e & H1 & _)]%bind_inv.
  - etrans; [by eapply Hm | by eapply Hf].
  - by eapply Hm.
Qed.

Lemma quiet_attempt {A : Type} (m : M A) : quiet m → quiet (attempt m).
Proof.
  intros Hm w r w'. unfold attempt.
  destruct (m w) as [r1 w1] eqn:E. intros [= <- <-]. by eapply Hm.
Qed.

Lemma quiet_try_except {A : Type} (body : M A) (handler : exn → M A) :
  quiet body → (∀ e, quiet (handler e)) → quiet (try_except body handler).
Proof.
  intros Hb Hh w r w' [(a & H1 & _)|(e & w1 & H1 & H2)]%try_except_inv.
  - by eapply Hb.
  - etrans; [by eapply Hb | by eapply Hh].
Qed.

Lemma quiet_external env name k : quiet (tasks.external env name k).
Proof. intros w r w' [-> _]%external_inv. reflexivity. Qed.

Lemma quiet_modify (f : World → World) :
  (∀ w, frame w (f w)) → quiet (modify f).
Proof. intros Hf w r w' [= <- <-]. apply Hf. Qed.

Create HintDb quiet discriminated.
#[global] Hint Resolve quiet_ret quiet_raise quiet_lift quiet_gets
  quiet_external quiet_attempt : quiet.

(** Breaks a goal [quiet m] down along the binds and branches of [m]. *)
Ltac quiet_step :=
  lazymatch goal with
  | |- quiet (_ ≫= _) => apply quiet_bind; [| intros ?]
  | |- quiet (match ?x with _ => _ end) => destruct x
  | |- quiet (let '(_, _) := ?x in _) => destruct x
  | |- quiet (if ?b then _ else _) => destruct b
  | |- _ => solve [eauto with quiet]
  end.
Ltac quiet_tac := repeat quiet_step.

Section quiet_tasks.
Context (env : Env).

Lemma quiet_Video_objects_get i : quiet (tasks.Video_objects_get i).
Proof. unfold tasks.Video_objects_get. quiet_tac. Qed.

Lemma quiet_Highlight_objects_get i : quiet (tasks.Highlight_objects_get i).
Proof. unfold tasks.Highlight_objects_get. quiet_tac. Qed.

Lemma quiet_Video_save name v : quiet (tasks.Video_save env name v).
Proof.
  unfold tasks.Video_save. quiet_tac. apply quiet_modify.
  intros w. split; simpl; [done | | done].
  intros i. apply lookup_id_save_in_is_Some.
Qed.

Lemma quiet_Highlight_save name h : quiet (tasks.Highlight_save env name h).
Proof.
  unfold tasks.Highlight_save. quiet_tac. apply quiet_modify.
  intros w. split; simpl; [done | done |].
  intros i. apply lookup_id_save_in_is_Some.
Qed.

Lemma quiet_Highlight_objects_create k h :
  quiet (tasks.Highlight_objects_create env k h).
Proof.
  unfold tasks.Highlight_objects_create. quiet_tac. apply quiet_modify.
  intros w. split; simpl; [done | done |].
  intros i. apply lookup_id_app_is_Some.
Qed.

Lemma quiet_Player_objects_create k v j c m d b :
  quiet (tasks.Player_objects_create env k v j c m d b).
Proof.
  unfold tasks.Player_objects_create. quiet_tac. apply quiet_modify.
  intros w. by split.
Qed.

Lemma quiet_Action_objects_create k a :
  quiet (tasks.Action_objects_create env k a).
Proof.
  unfold tasks.Action_objects_create. quiet_tac. apply quiet_modify.
  intros w. by split.
Qed.

Lemma quiet_Stats_objects_create k v p :
  quiet (tasks.Stats_objects_create env k v p).
Proof.
  unfold tasks.Stats_objects_create. quiet_tac. apply quiet_modify.
  intros w. by split.
Qed.

Lemma quiet_Stats_save k s : quiet (tasks.Stats_save env k s).
Proof.
  unfold tasks.Stats_save. quiet_tac. apply quiet_modify.
  intros w. by split.
Qed.

Lemma quiet_file_path v : quiet (tasks.file_path env v).
Proof. unfold tasks.file_path. quiet_tac. Qed.

Lemma quiet_Highlight_actions_add h a :
  quiet (tasks.Highlight_actions_add env h a).
Proof.
  unfold tasks.Highlight_actions_add. quiet_tac. apply quiet_modify.
  intros w. by split.
Qed.

Hint Resolve quiet_Video_objects_get quiet_Highlight_objects_get
  quiet_Video_save quiet_Highlight_save quiet_Highlight_objects_create
  quiet_Player_objects_create quiet_Action_objects_create
  quiet_Stats_objects_create quiet_Stats_save quiet_file_path
  quiet_Highlight_actions_add : quiet.

Lemma quiet_read_frames frames i tracks :
  quiet (tasks.read_frames env frames i tracks).
Proof.
  revert i tracks. induction frames as [|f frames IH]; intros i tracks; simpl;
    quiet_tac.
Qed.

Lemma quiet_create_players v i tracks :
  quiet (tasks.create_players env v i tracks).
Proof.
  revert i. induction tracks as [|t tracks IH]; intros i; simpl; quiet_tac.
Qed.

Lemma quiet_process_result v m t s e r :
  quiet (tasks.process_result env v m t s e r).
Proof. unfold tasks.process_result. quiet_tac. Qed.

Hint Resolve quiet_read_frames quiet_create_players quiet_process_result
  : quiet.

Lemma quiet_process_results v m t s e rs n :
  quiet (tasks.process_results env v m t s e rs n).
Proof.
  revert n. induction rs as [|r rs IH]; intros n; simpl; quiet_tac.
Qed.

Hint Resolve quiet_process_results : quiet.

Lemma quiet_process_segment v p m t l d s n :
  quiet (tasks.process_segment env v p m t l d s n).
Proof. unfold tasks.process_segment. quiet_tac. Qed.

Hint Resolve quiet_process_segment : quiet.

Lemma quiet_process_segments v p m t l d ss n :
  quiet (tasks.process_segments env v p m t l d ss n).
Proof.
  revert n. induction ss as [|s ss IH]; intros n; simpl; quiet_tac.
Qed.

Lemma quiet_player_stats v p : quiet (tasks.player_stats env v p).
Proof. unfold tasks.player_stats. quiet_tac. Qed.

Hint Resolve quiet_process_segments quiet_player_stats : quiet.

Lemma quiet_for_players v ps : quiet (tasks.for_players env v ps).
Proof. induction ps as [|p ps IH]; simpl; quiet_tac. Qed.

Lemma quiet_select_clips h d acts clips total :
  quiet (tasks.select_clips env h d acts clips total).
Proof.
  revert clips total. induction acts as [|a acts IH]; intros clips total;
    simpl; quiet_tac.
Qed.

Lemma quiet_close_clips clips : quiet (tasks.close_clips env clips).
Proof. induction clips as [|c clips IH]; simpl; quiet_tac. Qed.

Hint Resolve quiet_for_players quiet_select_clips quiet_close_clips : quiet.

Lemma quiet_create_highlight_video_body h :
  quiet (tasks.create_highlight_video_body env h).
Proof. unfold tasks.create_highlight_video_body. quiet_tac. Qed.

End quiet_tasks.

#[global] Hint Resolve quiet_Video_objects_get quiet_Highlight_objects_get
  quiet_Video_save quiet_Highlight_save quiet_Highlight_objects_create
  quiet_Player_objects_create quiet_Action_objects_create
  quiet_Stats_objects_create quiet_Stats_save quiet_file_path
  quiet_Highlight_actions_add quiet_read_frames quiet_create_players
  quiet_process_result quiet_process_results quiet_process_segment
  quiet_process_segments quiet_player_stats quiet_for_players
  quiet_select_clips quiet_close_clips quiet_create_highlight_video_body
  : quiet.

Lemma bind_quiet_inv {A B : Type} (m : M A) (f : A → M B) w r w' :
  quiet m →
  (m ≫= f) w = (r, w') →
  (∃ a w1, frame w w1 ∧ m w = (Ok a, w1) ∧ f a w1 = (r, w'))
  ∨ (∃ e, r = Raise e ∧ frame w w').
Proof.
  intros Hm [(a & w1 & H1 & H2)|(e & H1 & ->)]%bind_inv.
  - left. exists a, w1. split; [by eapply Hm | done].
  - right. exists e. split; [done | by eapply Hm].
Qed.

(** Chains the [frame] facts at hand. *)
Ltac frame_tac :=
  solve [ reflexivity | eassumption | etrans; [eassumption | frame_tac] ].

(** One step through a quiet prefix of the computation in [H]; the branch
    where the step raised is left as the first goal. *)
Ltac prefix_step H :=
  let a := fresh "a" in
  let w1 := fresh "w" in
  let e := fresh "e" in
  let Hf := fresh "Hf" in
  let Hm := fresh "Hm" in
  apply bind_quiet_inv in H; [| solve [quiet_tac]];
  destruct H as [(a & w1 & Hf & Hm & H)|(e & -> & Hf)];
  [| try (simpl; frame_tac)].

Section task_specs.
Context (env : Env).

Lemma Video_objects_get_inv video_id w r w' :
  tasks.Video_objects_get video_id w = (r, w') →
  w' = w
  ∧ ((∃ video, r = Ok video
               ∧ lookup_id Video.id video_id (videos w) = Some video
               ∧ Video.id video = video_id)
     ∨ (r = Raise Video_DoesNotExist
        ∧ lookup_id Video.id video_id (videos w) = None)).
Proof.
  unfold tasks.Video_objects_get, mbind, M_bind, gets, mret, M_ret, raise.
  destruct (lookup_id Video.id video_id (videos w)) as [v|] eqn:E;
    intros [= <- <-]; split; eauto.
  left. exists v. by apply lookup_id_key in E as [? _].
Qed.


Lemma Video_save_inv name video w r w' :
  tasks.Video_save env name video w = (r, w') →
  (r = Ok tt ∧ fault env (name, 0%Z) = None
   ∧ w' = set_videos (save_in Video.id video) w)
  ∨ (∃ msg, r = Raise (Exception msg) ∧ fault env (name, 0%Z) = Some msg
            ∧ w' = w).
Proof.
  unfold tasks.Video_save.
  intros [(a & w1 & H1 & H2)|(e & H1 & ->)]%bind_inv;
    apply external_inv in H1 as [-> [[? ?]|(msg & ? & ?)]]; simplify_eq.
  - injection H2 as <- <-. left. done.
  - right. eauto.
Qed.


Lemma delay_inv name k c w r w' :
  tasks.delay env name k c w = (r, w') →
  (r = Ok tt ∧ w' = set_queue (λ q, q ++ [c]) w)
  ∨ (∃ msg, r = Raise (Exception msg) ∧ w' = w).
Proof.
  unfold tasks.delay.
  intros [(a & w1 & H1 & H2)|(e & H1 & ->)]%bind_inv;
    apply external_inv in H1 as [-> [[? ?]|(msg & ? & ?)]]; simplify_eq.
  - injection H2 as <- <-. left. done.
  - right. eauto.
Qed.

(** What the last three statements of a video task do: save the video under
    its new status, enqueue the next task, return. *)
Lemma finish_spec video name c (d : Dict) w0 w r w' :
  frame w0 w →
  (tasks.Video_save env "video.save" video
     ≫= λ _, tasks.delay env name 0 c ≫= λ _, mret d) w = (r, w') →
  match r with
  | Raise e => frame w0 w' ∧ e ≠ Video_DoesNotExist
  | Ok d' =>
      d' = d ∧ queue w' = queue w0 ++ [c]
      ∧ lookup_id Video.id (Video.id video) (videos w') = Some video
  end.
Proof.
  intros Hf [(a & w1 & H1 & H2)|(e & H1 & ->)]%bind_inv.
  - apply Video_save_inv in H1 as [(_ & _ & ->)|(msg & ? & _)]; [| done].
    apply bind_inv in H2 as [(a' & w2 & H2 & H3)|(e & H2 & ->)].
    + apply delay_inv in H2 as [[_ ->]|(msg & ? & _)]; [| done].
      injection H3 as <- <-. split; [done |]. split.
      * simpl. by rewrite (frame_queue _ _ Hf).
      * simpl. apply lookup_id_save_in.
    + apply delay_inv in H2 as [[? _]|(msg & [= ->] & ->)]; [done |].
      split; [| done]. etrans; [done |].
      split; simpl; [done | | done].
      intros i. apply lookup_id_save_in_is_Some.
  - apply Video_save_inv in H1 as [(? & _)|(msg & [= ->] & _ & ->)]; [done |].
    done.
Qed.

Lemma error_dict_status message :
  dict_get "status" (tasks.error_dict message) = Some (VStr "error")
  ∧ dict_get "message" (tasks.error_dict message) = Some (VStr message).
Proof. split; reflexivity. Qed.

(** The shared [except] block, on a video that is there. *)
Lemma video_error_handler_spec video_id prefix e w video :
  lookup_id Video.id video_id (videos w) = Some video →
  fault env ("except: video.save", 0%Z) = None →
  ∃ w',
    tasks.video_error_handler env video_id prefix e w
      = (Ok (tasks.error_dict (str e)), w')
    ∧ queue w' = queue w
    ∧ lookup_id Video.id video_id (videos w')
      = Some (Video.set_error_message (Some (prefix +:+ str e))
                (Video.set_status "error" video)).
Proof.
  intros Hv Hfault. eexists. unfold tasks.video_error_handler.
  unfold tasks.Video_objects_get, tasks.Video_save, tasks.external.
  unfold mbind, M_bind, gets, modify, mret, M_ret. rewrite Hv, Hfault.
  split; [reflexivity |]. split; [reflexivity |]. simpl.
  apply lookup_id_key in Hv as [<- _].
  apply (lookup_id_save_in Video.id
           (Video.set_error_message _ (Video.set_status "error" video))).
Qed.

(** The shared [except] block, on a video that is not there: the lookup in
    the block raises again and nothing catches it. *)
Lemma video_error_handler_missing video_id prefix e w :
  lookup_id Video.id video_id (videos w) = None →
  tasks.video_error_handler env video_id prefix e w
  = (Raise Video_DoesNotExist, w).
Proof.
  intros Hv. unfold tasks.video_error_handler, tasks.Video_objects_get.
  unfold mbind, M_bind, gets, raise. by rewrite Hv.
Qed.


(** Opens the [Video.objects.get] a body starts with. *)
Ltac open_get H video Hl Hid :=
  let Hget := fresh "Hget" in
  let w1 := fresh "w" in
  apply bind_inv in H as [(video & w1 & Hget & H)|(? & Hget & ->)];
  apply Video_objects_get_inv in Hget as [-> Hget];
  [ destruct Hget as [(? & [= <-] & Hl & Hid)|[? _]]; [| done]
  | simpl; reflexivity ].

Lemma process_video_task_body_spec video_id w r w' :
  tasks.process_video_task_body env video_id w = (r, w') →
  video_body_post video_id "processing" (call_detect_players_task video_id)
    w r w'
  ∧ (∀ e, r = Raise e →
       (e = Video_DoesNotExist
        ↔ lookup_id Video.id video_id (videos w) = None)).
Proof.
  unfold tasks.process_video_task_body. intros H.
  apply bind_inv in H as [(video & w1 & Hget & H)|(? & Hget & ->)];
    apply Video_objects_get_inv in Hget as [-> Hget].
  - destruct Hget as [(? & [= <-] & Hl & Hid)|[? _]]; [| done].
    cbv zeta in H. eapply finish_spec in H; [| reflexivity].
    destruct r as [d|e]; simpl.
    + destruct H as (_ & Hq & Hv). simpl in Hq, Hv. rewrite Hid in Hq, Hv.
      split; [| done]. split; [done |]. eauto.
    + destruct H as [Hf Hne]. split; [done |].
      intros e' [= <-]. rewrite Hl. split; [done | done].
  - destruct Hget as [(? & ? & _)|[[= ->] Hl]]; [done |].
    split; [simpl; reflexivity |]. intros e' [= <-]. done.
Qed.

Lemma detect_players_task_body_spec video_id w r w' :
  tasks.detect_players_task_body env video_id w = (r, w') →
  video_body_post video_id "players_detected"
    (call_analyze_ball_and_score_task video_id) w r w'.
Proof.
  unfold tasks.detect_players_task_body. intros H.
  open_get H video Hl Hid.
  do 6 prefix_step H.
  cbv zeta in H. simpl in H. rewrite Hid in H.
  eapply (finish_spec _ _ _ _ w) in H; [| frame_tac].
  destruct r as [d|e]; simpl; [| by destruct H].
  destruct H as (_ & Hq & Hv). simpl in Hv. rewrite Hid in Hv. eauto.
Qed.

Lemma analyze_ball_and_score_task_body_spec video_id w r w' :
  tasks.analyze_ball_and_score_task_body env video_id w = (r, w') →
  video_body_post video_id "ball_analyzed"
    (call_detect_actions_with_mmaction video_id "mmaction2_tsn" (1 # 2))
    w r w'.
Proof.
  unfold tasks.analyze_ball_and_score_task_body. intros H.
  open_get H video Hl Hid.
  cbv zeta in H. simpl in H. rewrite Hid in H.
  eapply (finish_spec _ _ _ _ w) in H; [| frame_tac].
  destruct r as [d|e]; simpl; [| by destruct H].
  destruct H as (_ & Hq & Hv). simpl in Hv. rewrite Hid in Hv. eauto.
Qed.

Lemma detect_actions_with_mmaction_body_spec video_id model_type threshold
    w r w' :
  tasks.detect_actions_with_mmaction_body env video_id model_type threshold w
  = (r, w') →
  video_body_post video_id "actions_done"
    (call_calculate_stats_task video_id) w r w'.
Proof.
  unfold tasks.detect_actions_with_mmaction_body. intros H.
  open_get H video Hl Hid.
  do 7 prefix_step H.
  cbv zeta in H. simpl in H. rewrite Hid in H.
  eapply (finish_spec _ _ _ _ w) in H; [| frame_tac].
  destruct r as [d|e]; simpl; [| by destruct H].
  destruct H as (_ & Hq & Hv). simpl in Hv. rewrite Hid in Hv. eauto.
Qed.

Lemma calculate_stats_task_body_spec video_id w r w' :
  tasks.calculate_stats_task_body env video_id w = (r, w') →
  video_body_post video_id "highlights_created"
    (call_auto_generate_highlights_task video_id) w r w'.
Proof.
  unfold tasks.calculate_stats_task_body. intros H.
  open_get H video Hl Hid.
  do 2 prefix_step H.
  cbv zeta in H. simpl in H. rewrite Hid in H.
  eapply (finish_spec _ _ _ _ w) in H; [| frame_tac].
  destruct r as [d|e]; simpl; [| by destruct H].
  destruct H as (_ & Hq & Hv). simpl in Hv. rewrite Hid in Hv. eauto.
Qed.


Lemma Highlight_objects_create_inv k h w r w' :
  tasks.Highlight_objects_create env k h w = (r, w') →
  (∃ e, r = Raise e ∧ w' = w)
  ∨ (let h' := Highlight.set_id (next_id Highlight.id (highlights w)) h in
     is_Some (Highlight.duration h)
     ∧ r = Ok h' ∧ w' = set_highlights (λ l, l ++ [h']) w).
Proof.
  unfold tasks.Highlight_objects_create.
  intros [(a & w1 & H1 & H2)|(e & H1 & ->)]%bind_inv;
    apply external_inv in H1 as [-> [[? ?]|(msg & ? & ?)]]; simplify_eq.
  - destruct (Highlight.duration h) as [q|] eqn:Hd.
    + right. unfold mbind, M_bind, gets, modify, mret, M_ret in H2.
      injection H2 as <- <-. eauto.
    + left. injection H2 as <- <-. eauto.
  - left. eauto.
Qed.

(** A highlight built without a duration is never inserted. *)
Lemma Highlight_objects_create_unset k h w :
  Highlight.duration h = None →
  ∃ e, tasks.Highlight_objects_create env k h w = (Raise e, w).
Proof.
  intros Hd. unfold tasks.Highlight_objects_create, tasks.external.
  unfold mbind, M_bind, raise, mret, M_ret.
  destruct (fault env _) as [msg|]; [eauto |]. rewrite Hd. eauto.
Qed.

(** The loop of [auto_generate_highlights_task] stops at its first
    insertion, having written nothing. *)
Lemma for_highlight_types_raises video k ty types w :
  ∃ e, tasks.for_highlight_types env video k (ty :: types) w = (Raise e, w).
Proof.
  destruct ty as [[highlight_type min_confidence] max_duration]. simpl.
  match goal with
  | |- context [tasks.Highlight_objects_create env k ?h] =>
      destruct (Highlight_objects_create_unset k h w eq_refl) as [e He]
  end.
  exists e. by rewrite (bind_raise _ _ _ _ _ He).
Qed.

(** The [try] block of [auto_generate_highlights_task] always raises, and
    leaves the world as it found it. *)
Lemma auto_generate_highlights_task_body_raises video_id w :
  ∃ e, tasks.auto_generate_highlights_task_body env video_id w = (Raise e, w).
Proof.
  unfold tasks.auto_generate_highlights_task_body, tasks.Video_objects_get.
  unfold mbind at 1, M_bind at 1, gets.
  unfold mbind at 1, M_bind at 1.
  destruct (lookup_id Video.id video_id (videos w)) as [video|]; simpl;
    [| eauto].
  unfold tasks.highlight_types.
  destruct (for_highlight_types_raises video 0
              ("best_plays", (8 # 10)%Q, 60%Q)
              [ ("shooting_highlights", (7 # 10)%Q, 45%Q);
                ("defensive_highlights", (7 # 10)%Q, 30%Q) ] w) as [e He].
  exists e. by rewrite (bind_raise _ _ _ _ _ He).
Qed.

(** The [except] block of [create_highlight_video], on a highlight that is
    there. *)
Lemma create_highlight_video_handler_spec highlight_id e w h :
  lookup_id Highlight.id highlight_id (highlights w) = Some h →
  fault env ("except: highlight.save", 0%Z) = None →
  ∃ w',
    tasks.create_highlight_video_handler env highlight_id e w
      = (Ok (tasks.error_dict (str e)), w')
    ∧ queue w' = queue w
    ∧ lookup_id Highlight.id highlight_id (highlights w')
      = Some (Highlight.set_processing_error (Some (str e))
                (Highlight.set_is_processing false h)).
Proof.
  intros Hh Hfault. eexists. unfold tasks.create_highlight_video_handler.
  unfold tasks.Highlight_objects_get, tasks.Highlight_save, tasks.external.
  unfold mbind, M_bind, gets, modify, mret, M_ret. rewrite Hh, Hfault.
  split; [reflexivity |]. split; [reflexivity |]. simpl.
  apply lookup_id_key in Hh as [<- _].
  apply (lookup_id_save_in Highlight.id
           (Highlight.set_processing_error _
              (Highlight.set_is_processing false h))).
Qed.

End task_specs.

(** ** The task chain *)

Section chain.
Context (env : Env).

Lemma run_unfold c :
  tasks.run env c
  = try_except (tasks.body env c)
      (match c with
       | call_process_video_task v => tasks.process_video_task_handler env v
       | call_detect_players_task v =>
           tasks.video_error_handler env v "Player detection failed: "
       | call_analyze_ball_and_score_task v =>
           tasks.video_error_handler env v "Ball analysis failed: "
       | call_detect_actions_with_mmaction v _ _ =>
           tasks.video_error_handler env v "Action detection failed: "
       | call_calculate_stats_task v =>
           tasks.video_error_handler env v "Stats calculation failed: "
       | call_auto_generate_highlights_task _ =>
           tasks.auto_generate_highlights_task_handler
       | call_create_highlight_video h =>
           tasks.create_highlight_video_handler env h
       end).
Proof. by destruct c. Qed.

(** An [except] block that returns, returns the error dict. *)
Lemma video_error_handler_returns v prefix e w d w' :
  tasks.video_error_handler env v prefix e w = (Ok d, w') →
  d = tasks.error_dict (str e).
Proof.
  unfold tasks.video_error_handler.
  intros [(video & w1 & _ & H)|(? & _ & ?)]%bind_inv; [| done].
  cbv zeta in H.
  apply bind_inv in H as [(? & w2 & _ & H)|(? & _ & ?)]; [| done].
  by injection H as <- <-.
Qed.

Lemma handler_returns_error c e w d w' :
  match c with
  | call_process_video_task v => tasks.process_video_task_handler env v
  | call_detect_players_task v =>
      tasks.video_error_handler env v "Player detection failed: "
  | call_analyze_ball_and_score_task v =>
      tasks.video_error_handler env v "Ball analysis failed: "
  | call_detect_actions_with_mmaction v _ _ =>
      tasks.video_error_handler env v "Action detection failed: "
  | call_calculate_stats_task v =>
      tasks.video_error_handler env v "Stats calculation failed: "
  | call_auto_generate_highlights_task _ =>
      tasks.auto_generate_highlights_task_handler
  | call_create_highlight_video h =>
      tasks.create_highlight_video_handler env h
  end e w = (Ok d, w') →
  dict_get "status" d = Some (VStr "error").
Proof.
  destruct c as [v|v|v|v m t|v|v|h]; intros H;
    try (apply video_error_handler_returns in H as ->; reflexivity).
  - unfold tasks.process_video_task_handler in H.
    destruct e;
      try (apply video_error_handler_returns in H as ->; reflexivity).
    by injection H as <- <-.
  - by injection H as <- <-.
  - unfold tasks.create_highlight_video_handler in H.
    apply bind_inv in H as [(hl & w1 & _ & H)|(? & _ & ?)]; [| done].
    cbv zeta in H.
    apply bind_inv in H as [(? & w2 & _ & H)|(? & _ & ?)]; [| done].
    by injection H as <- <-.
Qed.

(** The status a video task leaves on its video when it goes through.  The
    last label, "done", is missing: [auto_generate_highlights_task] never
    goes through. *)
Lemma success_sets_status (c : Call) (w w' : World) (d : Dict) :
  tasks.run env c w = (Ok d, w') →
  dict_get "status" d ≠ Some (VStr "error") →
  ∀ v label,
    (c, label) ∈
      [ (call_process_video_task v, "processing");
        (call_detect_players_task v, "players_detected");
        (call_analyze_ball_and_score_task v, "ball_analyzed");
        (call_calculate_stats_task v, "highlights_created") ]
    ∨ (∃ m t, c = call_detect_actions_with_mmaction v m t
              ∧ label = "actions_done") →
    ∃ video, lookup_id Video.id v (videos w') = Some video
             ∧ Video.status video = label.
Proof.
  rewrite run_unfold.
  intros [(d' & Hbody & [= <-])|(e & w1 & _ & Hh)]%try_except_inv Hstatus;
    [| by apply handler_returns_error in Hh].
  intros v label [Hc|(m & t & -> & ->)].
  - repeat (apply elem_of_cons in Hc as [[= -> ->]|Hc]);
      [| | | | by apply elem_of_nil in Hc]; simpl in Hbody.
    + by apply process_video_task_body_spec in Hbody as [[_ ?] _].
    + by apply detect_players_task_body_spec in Hbody as [_ ?].
    + by apply analyze_ball_and_score_task_body_spec in Hbody as [_ ?].
    + by apply calculate_stats_task_body_spec in Hbody as [_ ?].
  - simpl in Hbody.
    by apply detect_actions_with_mmaction_body_spec in Hbody as [_ ?].
Qed.

(** A call that goes through (returns a dict whose status is not "error")
    has enqueued exactly the next link of the chain: [process_video_task] →
    [detect_players_task] → [analyze_ball_and_score_task] →
    [detect_actions_with_mmaction] → [calculate_stats_task] →
    [auto_generate_highlights_task]; [create_highlight_video] enqueues
    nothing, and [auto_generate_highlights_task] never goes through. *)
Lemma success_enqueues_next_task (c : Call) (w w' : World) (d : Dict) :
  tasks.run env c w = (Ok d, w') →
  dict_get "status" d ≠ Some (VStr "error") →
  enqueued c w w'.
Proof.
  rewrite run_unfold.
  intros [(d' & Hbody & [= <-])|(e & w1 & _ & Hh)]%try_except_inv Hstatus;
    [| by apply handler_returns_error in Hh].
  destruct c as [v|v|v|v m t|v|v|h]; simpl in *.
  - by apply process_video_task_body_spec in Hbody as [[? _] _].
  - by apply detect_players_task_body_spec in Hbody as [? _].
  - by apply analyze_ball_and_score_task_body_spec in Hbody as [? _].
  - by apply detect_actions_with_mmaction_body_spec in Hbody as [? _].
  - by apply calculate_stats_task_body_spec in Hbody as [? _].
  - destruct (auto_generate_highlights_task_body_raises env v w) as [e He].
    by rewrite He in Hbody.
  - apply quiet_create_highlight_video_body in Hbody. apply Hbody.
Qed.

(** C2, amended: when the [try] block of a task other than
    [auto_generate_highlights_task] raises while the row the task works on
    is there and the save of the [except] block goes through, the task
    returns the error dict carrying [str(e)], the row carries the failure
    ([status] "error" and [error_message] on the video, [processing_error]
    on the highlight) and the queue is as it was; [process_video_task] on a
    video that is not there returns "Video not found" and writes nothing. *)
Theorem task_failure_is_recorded (c : Call) (w w1 : World) (e : exn) :
  (∀ v, c ≠ call_auto_generate_highlights_task v) →
  tasks.body env c w = (Raise e, w1) →
  fault env (handler_site c) = None →
  (row_exists c w →
   ∃ w2, tasks.run env c w = (Ok (tasks.error_dict (str e)), w2)
         ∧ error_recorded c e w2
         ∧ queue w2 = queue w)
  ∧ (∀ v, c = call_process_video_task v → ¬ row_exists c w →
       tasks.run env c w = (Ok (tasks.error_dict "Video not found"), w)).
Proof.
  intros Hc Hbody Hfault. split.
  - intros Hrow. rewrite run_unfold. unfold try_except. rewrite Hbody.
    destruct c as [v|v|v|v m t|v|v|h]; simpl in *;
      [| | | | | by destruct (Hc v) |].
    + apply process_video_task_body_spec in Hbody as [Hf He].
      assert (e ≠ Video_DoesNotExist) as Hne.
      { intros ->. destruct (He _ eq_refl) as [Hnone _].
        specialize (Hnone eq_refl). destruct Hrow as [? Hrow]. congruence. }
      simpl in Hf. apply (frame_videos _ _ Hf) in Hrow as [video Hv].
      destruct (video_error_handler_spec env v "" e w1 video Hv Hfault)
        as (w2 & Hrun & Hq & Hl).
      exists w2. split; [by destruct e | ].
      split; [eauto | by rewrite Hq, (frame_queue _ _ Hf)].
    + apply detect_players_task_body_spec in Hbody as Hf.
      simpl in Hf. apply (frame_videos _ _ Hf) in Hrow as [video Hv].
      destruct (video_error_handler_spec env v "Player detection failed: "
                  e w1 video Hv Hfault) as (w2 & Hrun & Hq & Hl).
      exists w2. split; [done |].
      split; [eauto | by rewrite Hq, (frame_queue _ _ Hf)].
    + apply analyze_ball_and_score_task_body_spec in Hbody as Hf.
      simpl in Hf. apply (frame_videos _ _ Hf) in Hrow as [video Hv].
      destruct (video_error_handler_spec env v "Ball analysis failed: "
                  e w1 video Hv Hfault) as (w2 & Hrun & Hq & Hl).
      exists w2. split; [done |].
      split; [eauto | by rewrite Hq, (frame_queue _ _ Hf)].
    + apply detect_actions_with_mmaction_body_spec in Hbody as Hf.
      simpl in Hf. apply (frame_videos _ _ Hf) in Hrow as [video Hv].
      destruct (video_error_handler_spec env v "Action detection failed: "
                  e w1 video Hv Hfault) as (w2 & Hrun & Hq & Hl).
      exists w2. split; [done |].
      split; [eauto | by rewrite Hq, (frame_queue _ _ Hf)].
    + apply calculate_stats_task_body_spec in Hbody as Hf.
      simpl in Hf. apply (frame_videos _ _ Hf) in Hrow as [video Hv].
      destruct (video_error_handler_spec env v "Stats calculation failed: "
                  e w1 video Hv Hfault) as (w2 & Hrun & Hq & Hl).
      exists w2. split; [done |].
      split; [eauto | by rewrite Hq, (frame_queue _ _ Hf)].
    + apply quiet_create_highlight_video_body in Hbody as Hf.
      apply (frame_highlights _ _ Hf) in Hrow as [hl Hh].
      destruct (create_highlight_video_handler_spec env h e w1 hl Hh Hfault)
        as (w2 & Hrun & Hq & Hl).
      exists w2. split; [done |].
      split; [eauto | by rewrite Hq, (frame_queue _ _ Hf)].
  - intros v -> Hrow. simpl in *.
    unfold tasks.process_video_task, try_except.
    assert (lookup_id Video.id v (videos w) = None) as Hnone.
    { destruct (lookup_id Video.id v (videos w)) eqn:E; [| done].
      destruct Hrow. eauto. }
    unfold tasks.process_video_task_body, tasks.Video_objects_get.
    unfold mbind, M_bind, gets, raise. rewrite Hnone. reflexivity.
Qed.

End chain.

(** The label [analyze_ball_and_score_task] writes is not among the
    declared choices of the column; the others are. *)
Remark statuses_and_choices :
  ("ball_analyzed" ∉ fst <$> Video.STATUS_CHOICES)
  ∧ Forall (λ label, label ∈ fst <$> Video.STATUS_CHOICES)
      [ "uploaded"; "processing"; "players_detected"; "actions_done";
        "highlights_created"; "done"; "error" ].
Proof.
  split.
  - apply (bool_decide_eq_false_1 (_ ∈ _)). reflexivity.
  - apply (bool_decide_eq_true_1 (Forall _ _)). reflexivity.
Qed.

(** Without a fault the video goes through the labels in order, one per
    task, up to "highlights_created"; the sixth task,
    [auto_generate_highlights_task], fails on its first insertion and
    leaves the label where it was. *)
Example statuses_without_fault :
  samples.status_trace samples.no_faults 6 samples.uploaded
  = [ Some "processing"; Some "players_detected"; Some "ball_analyzed";
      Some "actions_done"; Some "highlights_created";
      Some "highlights_created" ].
Proof. vm_compute. reflexivity. Qed.

(** When the [try] block of [auto_generate_highlights_task] raises, the
    task returns the error dict and the videos are as they were before the
    task ran: no status is written. *)
Lemma auto_generate_failure_keeps_videos env video_id w e w1 :
  tasks.body env (call_auto_generate_highlights_task video_id) w
  = (Raise e, w1) →
  tasks.run env (call_auto_generate_highlights_task video_id) w
  = (Ok (tasks.error_dict (str e)), w1)
  ∧ videos w1 = videos w.
Proof.
  intros Hbody. split.
  - simpl in *. unfold tasks.auto_generate_highlights_task, try_except.
    by rewrite Hbody.
  - destruct (auto_generate_highlights_task_body_raises env video_id w)
      as [e' He].
    simpl in Hbody. rewrite He in Hbody. by injection Hbody as _ <-.
Qed.

(** C1: the failure branch of [auto_generate_highlights_task] does not set
    the status.  The database refuses the first highlight row; the task
    returns the error dict, and the video still reads "highlights_created"
    with no error message.  Under the same kind of failure one step
    earlier, [calculate_stats_task] does set "error". *)
Theorem auto_generate_failure_leaves_status :
  tasks.run samples.highlight_insert_fails
    (call_auto_generate_highlights_task 1) samples.stats_done
  = (Ok (tasks.error_dict
           "NOT NULL constraint failed: highlights_highlight.duration"),
     samples.stats_done)
  ∧ lookup_id Video.id 1 (videos samples.stats_done)
    = Some (samples.video1 "highlights_created")
  ∧ (Video.status <$>
       lookup_id Video.id 1
         (videos (tasks.run
                    (samples.failing_at ("video.save", 0%Z) "database is locked")
                    (call_calculate_stats_task 1)
                    (samples.world_of [samples.video1 "actions_done"] [])).2))
    = Some "error".
Proof. vm_compute. done. Qed.

(** C2, as stated, fails: [process_video_task] on a video that is not there
    raises in its [try] block and returns the error dict, yet no row
    carries the failure. *)
Lemma missing_video_failure_is_not_recorded :
  tasks.body samples.no_faults (call_process_video_task 7) samples.empty
  = (Raise Video_DoesNotExist, samples.empty)
  ∧ ¬ (∃ d w2,
         tasks.run samples.no_faults (call_process_video_task 7) samples.empty
         = (Ok d, w2)
         ∧ dict_get "status" d = Some (VStr "error")
         ∧ error_recorded (call_process_video_task 7) Video_DoesNotExist w2
         ∧ queue w2 = queue samples.empty).
Proof.
  split; [reflexivity |].
  intros (d & w2 & Hrun & _ & (row & Hrow & _) & _).
  vm_compute in Hrun. injection Hrun as _ <-. discriminate.
Qed.

Lemma task_failure_is_recorded_witness :
  let c := call_detect_players_task 1 in
  let w := samples.world_of [samples.video1 "processing"] [] in
  let e := Exception "yolov8n.pt not found" in
  tasks.body samples.yolo_fails c w = (Raise e, w)
  ∧ ∃ w2, tasks.run samples.yolo_fails c w
          = (Ok (tasks.error_dict (str e)), w2)
          ∧ error_recorded c e w2
          ∧ queue w2 = queue w.
Proof.
  intros c w e.
  assert (Hbody : tasks.body samples.yolo_fails c w = (Raise e, w))
    by (vm_compute; reflexivity).
  split; [exact Hbody |].
  apply (task_failure_is_recorded samples.yolo_fails c w w e).
  - intros v. discriminate.
  - exact Hbody.
  - reflexivity.
  - vm_compute. eauto.
Defined.

(** [auto_generate_highlights_task] answers with the error dict and leaves
    the world as it found it, whatever the environment and the database. *)
Lemma auto_generate_highlights_task_fails env video_id w :
  ∃ msg,
    tasks.auto_generate_highlights_task env video_id w
    = (Ok (tasks.error_dict msg), w).
Proof.
  unfold tasks.auto_generate_highlights_task, try_except.
  destruct (auto_generate_highlights_task_body_raises env video_id w)
    as [e ->].
  unfold tasks.auto_generate_highlights_task_handler. by exists (str e).
Qed.

(** C3: the last hand-off of the chain never happens.
    [auto_generate_highlights_task] builds its first highlight without a
    duration, a column the table requires: the insertion raises, the
    [except] block answers with the error dict, and whatever the
    environment and the database the task inserts no highlight and
    enqueues nothing; it leaves the world as it found it.  So it does for
    video 1 as [calculate_stats_task] hands it over, with no fault at all.
    From the upload of video 1 the worker runs the six tasks in the order
    of the chain, each of the first five enqueueing the next, and then
    finds the queue empty: no [create_highlight_video] was ever called. *)
Theorem auto_generate_enqueues_nothing :
  (∀ env video_id w,
     ∃ msg,
       tasks.run env (call_auto_generate_highlights_task video_id) w
       = (Ok (tasks.error_dict msg), w))
  ∧ tasks.run samples.no_faults (call_auto_generate_highlights_task 1)
      samples.stats_done
    = (Ok (tasks.error_dict
             "NOT NULL constraint failed: highlights_highlight.duration"),
       samples.stats_done)
  ∧ (let r := tasks.worker samples.no_faults 9 samples.uploaded in
     r.1.*1
     = [ call_process_video_task 1; call_detect_players_task 1;
         call_analyze_ball_and_score_task 1;
         call_detect_actions_with_mmaction 1 "mmaction2_tsn" (1 # 2);
         call_calculate_stats_task 1;
         call_auto_generate_highlights_task 1 ]
     ∧ (λ x, match x.2 with
             | Ok d => dict_get "status" d
             | Raise _ => None
             end) <$> r.1
       = [ Some (VStr "started"); Some (VStr "completed");
           Some (VStr "completed"); Some (VStr "completed");
           Some (VStr "completed"); Some (VStr "error") ]
     ∧ queue r.2 = [] ∧ highlights r.2 = []).
Proof.
  split; [| split; [vm_compute; reflexivity |]].
  - intros env video_id w. apply auto_generate_highlights_task_fails.
  - vm_compute. done.
Qed.

(** ** The duration budget of a highlight *)

Section budget.
Context (env : Env).

#[local] Instance by_confidence_desc_total : Total tasks.by_confidence_desc.
Proof.
  intros a b. unfold tasks.by_confidence_desc.
  destruct (Qlt_le_dec (Action.confidence a) (Action.confidence b)) as [H|H].
  - right. apply Qle_bool_iff. by apply Qlt_le_weak.
  - left. by apply Qle_bool_iff.
Qed.


Lemma candidate_actions_elem h video acts a :
  a ∈ tasks.candidate_actions h video acts →
  a ∈ acts ∧ Action.video a = Video.id video
  ∧ (Highlight.min_confidence h <= Action.confidence a)%Q.
Proof.
  unfold tasks.candidate_actions. rewrite merge_sort_Permutation.
  intros Ha.
  assert (a ∈ filter (λ a, Action.video a = Video.id video
                           ∧ Qgeb (Action.confidence a)
                                  (Highlight.min_confidence h) = true) acts)
    as [[? ?%Qgeb_true] ?]%list_elem_of_filter; [| done].
  destruct (Highlight.player h);
    [apply list_elem_of_filter in Ha as [_ Ha] |];
    repeat case_bool_decide;
    try (by apply list_elem_of_filter in Ha as [_ Ha]); done.
Qed.

Lemma budget_selection_stops max vd acts total :
  (max <= total)%Q → budget_selection max vd acts total = [].
Proof.
  intros Hle. destruct acts as [|a acts]; [done |]. simpl.
  by apply Qgeb_true in Hle as ->.
Qed.









End budget.

(** With room for eight seconds the first clip (four seconds) is taken, the
    next two (five seconds each) are passed over, and the last one (two
    seconds) is taken: six seconds are stored. *)
Example tight_budget_skips :
  let r := tasks.run samples.no_faults (call_create_highlight_video 9)
             samples.tight in
  highlight_actions r.2 = [(9, 1); (9, 4)]
  ∧ (Highlight.duration <$> lookup_id Highlight.id 9 (highlights r.2))
    = Some (Some 6%Q).
Proof. vm_compute. done. Qed.


(** * Further properties *)

(** ** What a task may write *)

Section respects.
Context (R : relation World) `{!PreOrder R}.

Lemma respects_ret {A : Type} (a : A) : respects R (mret a).
Proof using Type*. intros w r w' [= <- <-]. reflexivity. Qed.

Lemma respects_raise {A : Type} (e : exn) : respects R (raise e : M A).
Proof using Type*. intros w r w' [= <- <-]. reflexivity. Qed.

Lemma respects_lift {A : Type} (x : Res A) : respects R (lift x).
Proof using Type*. intros w r w' [= <- <-]. reflexivity. Qed.

Lemma respects_gets {A : Type} (f : World → A) : respects R (gets f).
Proof using Type*. intros w r w' [= <- <-]. reflexivity. Qed.

Lemma respects_bind {A B : Type} (m : M A) (f : A → M B) :
  respects R m → (∀ a, respects R (f a)) → respects R (m ≫= f).
Proof using Type*.
  intros Hm Hf w r w' [(a & w1 & H1 & H2)|(e & H1 & _)]%bind_inv.
  - etrans; [by eapply Hm | by eapply Hf].
  - by eapply Hm.
Qed.

Lemma respects_attempt {A : Type} (m : M A) :
  respects R m → respects R (attempt m).
Proof using Type.
  intros Hm w r w'. unfold attempt.
  destruct (m w) as [r1 w1] eqn:E. intros [= <- <-]. by eapply Hm.
Qed.

Lemma respects_try_except {A : Type} (body : M A) (handler : exn → M A) :
  respects R body → (∀ e, respects R (handler e)) →
  respects R (try_except body handler).
Proof using Type*.
  intros Hb Hh w r w' [(a & H1 & _)|(e & w1 & H1 & H2)]%try_except_inv.
  - by eapply Hb.
  - etrans; [by eapply Hb | by eapply Hh].
Qed.

Lemma respects_external env name k : respects R (tasks.external env name k).
Proof using Type*. intros w r w' [-> _]%external_inv. reflexivity. Qed.

Lemma respects_modify (f : World → World) :
  (∀ w, R w (f w)) → respects R (modify f).
Proof using Type. intros Hf w r w' [= <- <-]. apply Hf. Qed.

End respects.

(** Breaks [respects R m] down along the binds and branches of [m]; what
    is left are the writes of [m]. *)
Ltac respects_step :=
  lazymatch goal with
  | |- respects _ (_ ≫= _) =>
      apply respects_bind; [apply _ | | intros ?; cbv beta]
  | |- respects _ (mret _) => apply respects_ret; apply _
  | |- respects _ (raise _) => apply respects_raise; apply _
  | |- respects _ (lift _) => apply respects_lift; apply _
  | |- respects _ (gets _) => apply respects_gets; apply _
  | |- respects _ (tasks.external _ _ _) => apply respects_external; apply _
  | |- respects _ (attempt _) => apply respects_attempt
  | |- respects _ (try_except _ _) =>
      apply respects_try_except; [apply _ | | intros ?; cbv beta]
  | |- respects _ (modify _) => apply respects_modify; intros ?
  | |- respects _ (match ?x with _ => _ end) => destruct x
  | |- respects _ (let '(_, _) := ?x in _) => destruct x
  | |- respects _ (if ?b then _ else _) => destruct b
  end.
Ltac respects_tac := repeat respects_step.

#[global] Instance kept_preorder {B : Type} (f : World → B) :
  PreOrder (kept f).
Proof.
  split.
  - by intros w.
  - intros w1 w2 w3 H1 H2. unfold kept in *. congruence.
Qed.

(** The writes of the tasks, table by table: a relation that no write to
    the named tables can break is respected. *)
Section footprints.
Context (env : Env) (R : relation World) `{!PreOrder R}.

Lemma respects_Video_objects_get i : respects R (tasks.Video_objects_get i).
Proof using Type*. unfold tasks.Video_objects_get. respects_tac. Qed.

Lemma respects_Highlight_objects_get i :
  respects R (tasks.Highlight_objects_get i).
Proof using Type*. unfold tasks.Highlight_objects_get. respects_tac. Qed.

Lemma respects_file_path v : respects R (tasks.file_path env v).
Proof using Type*. unfold tasks.file_path. respects_tac. Qed.

Lemma respects_read_frames frames i tracks :
  respects R (tasks.read_frames env frames i tracks).
Proof using Type*.
  revert i tracks. induction frames as [|f frames IH]; intros i tracks; simpl;
    respects_tac; apply IH.
Qed.

Lemma respects_close_clips clips : respects R (tasks.close_clips env clips).
Proof using Type*. induction clips as [|c clips IH]; simpl; respects_tac; apply IH. Qed.

Section videos.
Context (Hvideos : ∀ g w, R w (set_videos g w)).

Lemma respects_Video_save name v : respects R (tasks.Video_save env name v).
Proof using All. unfold tasks.Video_save. respects_tac. apply Hvideos. Qed.

Lemma respects_video_error_handler i prefix e :
  respects R (tasks.video_error_handler env i prefix e).
Proof using All.
  unfold tasks.video_error_handler. respects_tac;
    [apply respects_Video_objects_get | apply respects_Video_save].
Qed.

End videos.

Lemma respects_delay (Hqueue : ∀ g w, R w (set_queue g w)) name k c :
  respects R (tasks.delay env name k c).
Proof using Type*. unfold tasks.delay. respects_tac. apply Hqueue. Qed.

Lemma respects_create_players (Hplayers : ∀ g w, R w (set_players g w))
    v i tracks :
  respects R (tasks.create_players env v i tracks).
Proof using Type*.
  revert i. induction tracks as [|t tracks IH]; intros i; simpl;
    [respects_tac |].
  apply respects_bind; [apply _ | | intros _; apply IH].
  unfold tasks.Player_objects_create. respects_tac. apply Hplayers.
Qed.

Lemma respects_process_segments (Hactions : ∀ g w, R w (set_actions g w))
    v p m t l d ss n :
  respects R (tasks.process_segments env v p m t l d ss n).
Proof using Type*.
  assert (Hresult : ∀ s e r, respects R (tasks.process_result env v m t s e r)).
  { intros s e r. unfold tasks.process_result, tasks.Action_objects_create.
    respects_tac. apply Hactions. }
  assert (Hresults : ∀ s e rs k,
            respects R (tasks.process_results env v m t s e rs k)).
  { intros s e rs. induction rs as [|r rs IH]; intros k; simpl;
      [respects_tac |].
    apply respects_bind; [apply _ | by apply respects_attempt |].
    intros [[]|]; [apply IH | apply IH | respects_tac]. }
  revert n. induction ss as [|s ss IH]; intros n; simpl; [respects_tac |].
  apply respects_bind; [apply _ | | intros ?; apply IH].
  unfold tasks.process_segment. respects_tac. apply Hresults.
Qed.

Lemma respects_for_players (Hstats : ∀ g w, R w (set_stats g w)) v ps :
  respects R (tasks.for_players env v ps).
Proof using Type*.
  induction ps as [|p ps IH]; simpl; [respects_tac |].
  apply respects_bind; [apply _ | | intros _; apply IH].
  unfold tasks.player_stats, tasks.Stats_objects_create, tasks.Stats_save.
  respects_tac; apply Hstats.
Qed.

Lemma respects_select_clips
    (Hjoin : ∀ g w, R w (set_highlight_actions g w)) h d acts clips total :
  respects R (tasks.select_clips env h d acts clips total).
Proof using Type*.
  revert clips total. induction acts as [|a acts IH]; intros clips total;
    simpl; [respects_tac |].
  unfold tasks.Highlight_actions_add.
  respects_tac; [apply Hjoin | apply IH | apply IH].
Qed.

End footprints.

Section task_footprints.
Context (env : Env) (R : relation World) `{!PreOrder R}.
Context (Hvideos : ∀ g w, R w (set_videos g w)).

Lemma respects_bind_with {A B : Type} (P : A → Prop) (m : M A) (f : A → M B) :
  respects R m →
  (∀ w a w', m w = (Ok a, w') → P a) →
  (∀ a, P a → respects R (f a)) →
  respects R (m ≫= f).
Proof using PreOrder0.
  intros Hm HP Hf w r w' [(a & w1 & H1 & H2)|(e & H1 & _)]%bind_inv.
  - etrans; [by eapply Hm | eapply Hf; [by eapply HP | done]].
  - by eapply Hm.
Qed.

Lemma respects_process_video_task (Hqueue : ∀ g w, R w (set_queue g w)) v :
  respects R (tasks.process_video_task env v).
Proof using All.
  unfold tasks.process_video_task, tasks.process_video_task_body,
    tasks.process_video_task_handler.
  respects_tac;
    first [ by apply respects_Video_objects_get | by apply respects_Video_save
          | by apply respects_delay | by apply respects_video_error_handler ].
Qed.

Lemma respects_analyze_ball_and_score_task
    (Hqueue : ∀ g w, R w (set_queue g w)) v :
  respects R (tasks.analyze_ball_and_score_task env v).
Proof using All.
  unfold tasks.analyze_ball_and_score_task,
    tasks.analyze_ball_and_score_task_body.
  respects_tac;
    first [ by apply respects_Video_objects_get | by apply respects_Video_save
          | by apply respects_delay | by apply respects_video_error_handler ].
Qed.

Lemma respects_detect_actions_with_mmaction
    (Hqueue : ∀ g w, R w (set_queue g w))
    (Hactions : ∀ g w, R w (set_actions g w)) v m t :
  respects R (tasks.detect_actions_with_mmaction env v m t).
Proof using All.
  unfold tasks.detect_actions_with_mmaction,
    tasks.detect_actions_with_mmaction_body.
  respects_tac;
    first [ by apply respects_Video_objects_get | by apply respects_file_path
          | by apply respects_Video_save | by apply respects_delay
          | by apply respects_process_segments
          | by apply respects_video_error_handler ].
Qed.

Lemma respects_calculate_stats_task
    (Hqueue : ∀ g w, R w (set_queue g w))
    (Hstats : ∀ g w, R w (set_stats g w)) v :
  respects R (tasks.calculate_stats_task env v).
Proof using All.
  unfold tasks.calculate_stats_task, tasks.calculate_stats_task_body.
  respects_tac;
    first [ by apply respects_Video_objects_get | by apply respects_Video_save
          | by apply respects_delay | by apply respects_for_players
          | by apply respects_video_error_handler ].
Qed.

End task_footprints.

Lemma respects_create_highlight_video env (R : relation World) `{!PreOrder R}
    (Hhighlights : ∀ g w, R w (set_highlights g w))
    (Hjoin : ∀ g w, R w (set_highlight_actions g w)) h :
  respects R (tasks.create_highlight_video env h).
Proof.
  unfold tasks.create_highlight_video, tasks.create_highlight_video_body,
    tasks.create_highlight_video_handler, tasks.Highlight_save.
  respects_tac;
    first [ apply respects_Video_objects_get; apply _
          | apply respects_Highlight_objects_get; apply _
          | apply respects_file_path; apply _
          | apply respects_close_clips; apply _
          | by apply respects_select_clips
          | apply Hhighlights ].
Qed.

(** ** [detect_players_task] *)

Section tracks.
Context (env : Env).

Lemma add_box_seen_once i tracks box :
  Forall seen_once tracks → Forall seen_once (tasks.add_box i tracks box).
Proof.
  intros H. unfold tasks.add_box. destruct (_ && _); [| done].
  apply Forall_app. split; [done |]. by apply Forall_singleton.
Qed.

Lemma add_result_seen_once i tracks result :
  Forall seen_once tracks → Forall seen_once (tasks.add_result i tracks result).
Proof.
  destruct result as [boxes|]; [| done]. simpl.
  revert tracks. induction boxes as [|b boxes IH]; intros tracks H; simpl;
    [done |].
  by apply IH, add_box_seen_once.
Qed.

(** The loop over the frames never extends a track: every track it returns
    has been seen in exactly one frame. *)
Lemma read_frames_seen_once frames i tracks w tracks' w' :
  tasks.read_frames env frames i tracks w = (Ok tracks', w') →
  Forall seen_once tracks → Forall seen_once tracks'.
Proof.
  revert i tracks w. induction frames as [|f frames IH]; intros i tracks w;
    simpl.
  - by intros [= <- _].
  - intros [(ts & w1 & H1 & H2)|(e & _ & ?)]%bind_inv Hall; [| done].
    eapply IH; [exact H2 |].
    match type of H1 with context [if ?b then _ else _] => destruct b end.
    + apply bind_inv in H1 as [([] & w2 & _ & H1)|(e & _ & ?)]; [| done].
      injection H1 as <- _.
      clear H2. revert tracks Hall.
      induction f as [|r f IHf]; intros tracks Hall; simpl; [done |].
      by apply IHf, add_result_seen_once.
    + by injection H1 as <- _.
Qed.

(** Tracks seen once are below the ten appearances a player needs: the
    loop over the tracks does nothing. *)
Lemma create_players_seen_once video i tracks w :
  Forall seen_once tracks →
  tasks.create_players env video i tracks w = (Ok tt, w).
Proof.
  revert i. induction tracks as [|t tracks IH]; intros i Hall; simpl;
    [done |].
  apply Forall_cons in Hall as [Ht Hall]. unfold seen_once in Ht.
  rewrite Ht. simpl. unfold mbind, M_bind, mret, M_ret. by apply IH.
Qed.

End tracks.

(** Closes [respects R m] with the footprint lemma [L] of [m]. *)
Ltac footprint L :=
  solve [apply L; first [apply _ | done | intros; unfold kept; done]].

Lemma detect_players_task_body_keeps_players env v :
  respects (kept players) (tasks.detect_players_task_body env v).
Proof.
  unfold tasks.detect_players_task_body.
  apply respects_bind; [apply _ | footprint respects_Video_objects_get |].
  intros video.
  apply respects_bind; [apply _ | footprint respects_file_path |].
  intros path.
  apply respects_bind; [apply _ | respects_step | intros _].
  apply respects_bind; [apply _ | respects_step | intros _].
  apply (respects_bind_with (kept players) (Forall seen_once)).
  - footprint respects_read_frames.
  - intros w tracks w' H. eapply read_frames_seen_once; [exact H | done].
  - intros tracks Hunit.
    apply respects_bind; [apply _ | respects_step | intros _].
    apply respects_bind; [apply _ | |].
    + intros w r w' H. rewrite create_players_seen_once in H by done.
      by injection H as _ <-.
    + intros []. cbv zeta.
      respects_tac;
        [ footprint respects_Video_save | footprint respects_delay ].
Qed.

(** X1: [detect_players_task] never inserts a player, whatever the detector
    reports and however the task ends: each detection opens a track of
    its own, so no track reaches the ten appearances a [Player] row
    needs. *)
Theorem detect_players_task_creates_no_player
    (env : Env) (video_id : nat) (w : World) :
  players (tasks.run env (call_detect_players_task video_id) w).2 = players w.
Proof.
  destruct (tasks.run _ _ w) as [r w'] eqn:Hrun. simpl in *.
  revert Hrun. apply (respects_try_except (kept players)).
  - apply detect_players_task_body_keeps_players.
  - intros e. footprint respects_video_error_handler.
Qed.

(** The tables [detect_players_task] cannot reach at all. *)
Ltac detect_players_footprint f :=
  apply (respects_try_except (kept f));
    [| intros ?; footprint respects_video_error_handler];
  unfold tasks.detect_players_task_body;
  respects_tac;
  first [ footprint respects_Video_objects_get
        | footprint respects_file_path
        | footprint respects_read_frames
        | footprint respects_create_players
        | footprint respects_Video_save
        | footprint respects_delay ].

(** X2: the tables a task leaves alone, whatever its outcome: the three
    tasks up to ball analysis write nothing but the video and the queue;
    action detection adds to the actions only, the statistics task to the
    stats only; highlight generation writes nothing at all; and
    [create_highlight_video] touches neither the video nor the queue. *)
Theorem tasks_leave_other_tables_untouched (env : Env) (c : Call) (w : World) :
  untouched c w (tasks.run env c w).2.
Proof.
  destruct (tasks.run env c w) as [r w'] eqn:Hrun. simpl.
  destruct c as [v|v|v|v m t|v|v|h]; simpl in Hrun;
    [| | | | | destruct (auto_generate_highlights_task_fails env v w)
                 as [msg Hfail]; rewrite Hfail in Hrun;
               by injection Hrun as _ <- |];
    repeat split;
    lazymatch goal with |- ?f w' = ?f w => change (kept f w w') end;
    revert Hrun;
    try first [ footprint respects_process_video_task
              | footprint respects_analyze_ball_and_score_task
              | footprint respects_detect_actions_with_mmaction
              | footprint respects_calculate_stats_task
              | footprint respects_create_highlight_video ].
  - apply (respects_try_except (kept players));
      [apply detect_players_task_body_keeps_players |].
    intros e. footprint respects_video_error_handler.
  - detect_players_footprint actions.
  - detect_players_footprint highlights.
  - detect_players_footprint highlight_actions.
  - detect_players_footprint stats.
Qed.


(** ** [calculate_stats_task] *)

Lemma next_id_fresh {A : Type} (key : A → nat) (l : list A) (x : A) :
  x ∈ l → key x ≠ next_id key l.
Proof.
  intros Hx. unfold next_id.
  assert (key x ≤ max_list (key <$> l)); [| lia].
  apply max_list_elem_of_le. by apply list_elem_of_fmap_2.
Qed.

Lemma save_in_last {A : Type} (key : A → nat) (r r0 : A) (l : list A) :
  (∀ x, x ∈ l → key x ≠ key r) → key r0 = key r →
  save_in key r (l ++ [r0]) = l ++ [r].
Proof.
  intros Hl Hr0. induction l as [|x l IH]; simpl.
  - by rewrite Hr0, Nat.eqb_refl.
  - destruct (key x =? key r)%nat eqn:E.
    + apply Nat.eqb_eq in E. destruct (Hl x); [by constructor | done].
    + f_equal. apply IH. intros y Hy. apply Hl. by constructor.
Qed.

Lemma attempts_cons type a l :
  attempts type (a :: l) = (attempts type [a] + attempts type l)%Z.
Proof.
  unfold attempts. rewrite !filter_cons, filter_nil.
  case_decide; simpl; lia.
Qed.

Lemma made_cons type a l :
  made type (a :: l) = (made type [a] + made type l)%Z.
Proof.
  unfold made. rewrite !filter_cons, filter_nil.
  case_decide; simpl; lia.
Qed.

Lemma tally_cons a l :
  tally (a :: l) = zip_with Z.add (tally [a]) (tally l).
Proof.
  unfold tally. simpl zip_with.
  by rewrite !(attempts_cons _ a l), !(made_cons _ a l).
Qed.

(** The types [calculate_stats_task] counts. *)
Lemma counted_or_not (type : string) :
  type ∈ [ "shot_2pt"; "shot_3pt"; "free_throw"; "assist";
           "rebound_offensive"; "rebound_defensive"; "steal"; "block";
           "turnover"; "foul" ]
  ∨ (type ≠ "shot_2pt" ∧ type ≠ "shot_3pt" ∧ type ≠ "free_throw"
     ∧ type ≠ "assist" ∧ type ≠ "rebound_offensive"
     ∧ type ≠ "rebound_defensive" ∧ type ≠ "steal" ∧ type ≠ "block"
     ∧ type ≠ "turnover" ∧ type ≠ "foul").
Proof.
  destruct (decide (type = "shot_2pt")); [left; subst; set_solver |].
  destruct (decide (type = "shot_3pt")); [left; subst; set_solver |].
  destruct (decide (type = "free_throw")); [left; subst; set_solver |].
  destruct (decide (type = "assist")); [left; subst; set_solver |].
  destruct (decide (type = "rebound_offensive")); [left; subst; set_solver |].
  destruct (decide (type = "rebound_defensive")); [left; subst; set_solver |].
  destruct (decide (type = "steal")); [left; subst; set_solver |].
  destruct (decide (type = "block")); [left; subst; set_solver |].
  destruct (decide (type = "turnover")); [left; subst; set_solver |].
  destruct (decide (type = "foul")); [left; subst; set_solver |].
  right. done.
Qed.

(** One turn of the counting loop adds the action to the counters. *)
Lemma count_action_counters s a :
  counters (tasks.count_action s a) = zip_with Z.add (counters s) (tally [a]).
Proof.
  unfold tasks.count_action, tally, attempts, made, counters.
  destruct a as [i v p type st en ok x y m c md]. simpl.
  rewrite !filter_cons, !filter_nil.
  destruct (counted_or_not type) as [Hin|Hout].
  - repeat (apply elem_of_cons in Hin; destruct Hin as [Heq|Hin];
            [subst type; destruct ok as [[]|]; simpl; repeat f_equal; lia |]).
    inversion Hin.
  - destruct Hout as (?&?&?&?&?&?&?&?&?&?).
    rewrite !bool_decide_eq_false_2 by done.
    rewrite (bool_decide_eq_false_2 (type ∈ _))
      by (rewrite !elem_of_cons, elem_of_nil; tauto).
    rewrite !bool_decide_eq_false_2 by done.
    rewrite !decide_False by tauto.
    simpl. repeat f_equal; lia.
Qed.

Lemma count_action_keeps s a :
  Stats.id (tasks.count_action s a) = Stats.id s
  ∧ Stats.video (tasks.count_action s a) = Stats.video s
  ∧ Stats.player (tasks.count_action s a) = Stats.player s
  ∧ Stats.minutes_played (tasks.count_action s a) = Stats.minutes_played s
  ∧ Stats.plus_minus (tasks.count_action s a) = Stats.plus_minus s.
Proof.
  unfold tasks.count_action.
  repeat match goal with
         | |- context [bool_decide ?P] => destruct (bool_decide P)
         end; done.
Qed.

Lemma foldl_count_action s l :
  counters (foldl tasks.count_action s l)
  = zip_with Z.add (counters s) (tally l)
  ∧ Stats.id (foldl tasks.count_action s l) = Stats.id s
  ∧ Stats.video (foldl tasks.count_action s l) = Stats.video s
  ∧ Stats.player (foldl tasks.count_action s l) = Stats.player s
  ∧ Stats.minutes_played (foldl tasks.count_action s l)
    = Stats.minutes_played s
  ∧ Stats.plus_minus (foldl tasks.count_action s l) = Stats.plus_minus s.
Proof.
  revert s. induction l as [|a l IH]; intros s.
  - split; [| done]. unfold counters, tally, attempts, made. simpl.
    repeat (apply (f_equal2 cons); [lia |]). reflexivity.
  - simpl foldl.
    destruct (IH (tasks.count_action s a)) as (-> & -> & -> & -> & -> & ->).
    destruct (count_action_keeps s a) as (-> & -> & -> & -> & ->).
    split; [| done].
    rewrite count_action_counters.
    unfold counters, tally. simpl zip_with.
    rewrite !(attempts_cons _ a l), !(made_cons _ a l).
    repeat (apply (f_equal2 cons); [lia |]). reflexivity.
Qed.
Section stats_task.
Context (env : Env).

Lemma player_stats_ok video p w w' :
  tasks.player_stats env video p w = (Ok tt, w') →
  ∃ s, w' = set_stats (λ l, l ++ [s]) w
       ∧ stats_row_of (Video.id video) (actions w) p s
       ∧ ∀ r, r ∈ stats w →
              ¬ (Stats.video r = Video.id video
                 ∧ Stats.player r = Player.id p).
Proof.
  unfold tasks.player_stats, tasks.Stats_objects_create, tasks.Stats_save.
  intros H.
  apply bind_inv in H as [(s0 & w1 & Hcreate & H)|(e & _ & [=])].
  apply bind_inv in Hcreate as [([] & w0 & Hext & Hcreate)|(e & _ & [=])].
  apply external_inv in Hext as [-> _].
  apply bind_inv in Hcreate as [(ss & w0 & [= <- <-] & Hcreate)|(e & [=] & _)].
  destruct (existsb _ (stats w)) eqn:Hex; [done |].
  apply bind_inv in Hcreate as [([] & w0 & [= <-] & [= <- <-])|(e & [=] & _)].
  apply bind_inv in H as [(acts & w0 & [= <- <-] & H)|(e & [=] & _)].
  apply bind_inv in H as [(s1 & w2 & Hsave & [= <-])|(e & _ & [=])].
  apply bind_inv in Hsave as [([] & w3 & Hext & Hsave)|(e & _ & [=])].
  apply external_inv in Hext as [-> _].
  apply bind_inv in Hsave as [([] & w0 & [= <-] & [= <- <-])|(e & [=] & _)].
  fold (actions_of (Video.id video) (Player.id p) (actions w)).
  set (s0 := Stats.set_id (next_id Stats.id (stats w))
               (Stats.pre_save (Stats.new (Video.id video) (Player.id p)))).
  destruct (foldl_count_action s0
              (actions_of (Video.id video) (Player.id p) (actions w)))
    as (Hc & Hid & Hv & Hp & Hm & Hpm).
  remember (foldl tasks.count_action s0
              (actions_of (Video.id video) (Player.id p) (actions w)))
    as F eqn:HF. clear HF.
  exists (Stats.pre_save
            (Stats.set_minutes_played (tasks.minutes_of video) F)).
  split; [| split].
  - unfold set_stats. simpl. f_equal.
    apply save_in_last; [| simpl; by rewrite Hid].
    intros x Hx. simpl. rewrite Hid. simpl. by apply next_id_fresh.
  - unfold stats_row_of. split; [simpl; by rewrite Hv |].
    split; [simpl; by rewrite Hp |].
    split.
    + transitivity (counters F); [reflexivity |].
      rewrite Hc. unfold counters, tally. simpl.
      repeat (apply (f_equal2 cons); [lia |]). reflexivity.
    + split; [apply pre_save_ok |]. simpl. by rewrite Hpm.
  - intros r Hr [Hrv Hrp].
    assert (existsb
              (λ r : Stats.t,
                 (Stats.video r =? Video.id video)%nat
                 && (Stats.player r =? Player.id p)%nat) (stats w) = true)
      as Htrue; [| congruence].
    apply existsb_exists. exists r. split; [by apply list_elem_of_In |].
    by rewrite Hrv, Hrp, !Nat.eqb_refl.
Qed.

(** The loop over the players: one new row per player, in order. *)
Lemma for_players_ok video ps w w' :
  tasks.for_players env video ps w = (Ok tt, w') →
  ∃ rows,
    w' = set_stats (λ l, l ++ rows) w
    ∧ Forall2 (stats_row_of (Video.id video) (actions w)) ps rows.
Proof.
  revert w. induction ps as [|p ps IH]; intros w; simpl.
  - intros [= <-]. exists []. split; [| constructor].
    destruct w. unfold set_stats. simpl. by rewrite app_nil_r.
  - intros [([] & w1 & Hp & Hrest)|(e & _ & [=])]%bind_inv.
    apply player_stats_ok in Hp as (s & -> & Hrow & _).
    apply IH in Hrest as (rows & -> & Hrows).
    exists (s :: rows). split.
    + unfold set_stats. simpl. by rewrite <- app_assoc.
    + by constructor.
Qed.

End stats_task.

(** X3: when [calculate_stats_task] completes, the stats table has received
    exactly one new row per player of the video, in the order of the
    players, and nothing else in it has changed.  In the row of a player
    each counter is the number of the player's actions of that type in the
    video (made shots: those marked successful), [points] is
    2·fgm_2pt + 3·fgm_3pt + ftm, [rebounds] the sum of the two rebound
    counters and [plus_minus] 0. *)
Theorem calculate_stats_task_counts
    (env : Env) (video_id : nat) (w w' : World) (d : Dict) :
  tasks.run env (call_calculate_stats_task video_id) w = (Ok d, w') →
  dict_get "status" d = Some (VStr "completed") →
  ∃ rows,
    stats w' = stats w ++ rows
    ∧ Forall2 (stats_row_of video_id (actions w))
        (filter (λ p, Player.video p = video_id) (players w)) rows.
Proof.
  simpl. intros Hrun Hd.
  apply try_except_inv in Hrun as [(d' & Hbody & [= <-])|(e & w1 & _ & Hh)].
  - unfold tasks.calculate_stats_task_body in Hbody.
    apply bind_inv in Hbody as [(video & w1 & Hget & H)|(e & _ & [=])].
    apply Video_objects_get_inv in Hget as [-> Hget].
    destruct Hget as [(? & [= <-] & Hl & Hid)|[[=] _]].
    apply bind_inv in H as [(ps & w0 & [= <- <-] & H)|(e & [=] & _)].
    apply bind_inv in H as [([] & w1 & Hloop & H)|(e & _ & [=])].
    apply for_players_ok in Hloop as (rows & -> & Hrows).
    rewrite Hid in Hrows. exists rows. split; [| exact Hrows].
    cbv zeta in H.
    apply bind_inv in H as [([] & w2 & Hsave & H)|(e & _ & [=])].
    apply Video_save_inv in Hsave as [(_ & _ & ->)|(msg & [=] & _)].
    apply bind_inv in H as [([] & w3 & Hdelay & [= _ <-])|(e & _ & [=])].
    apply delay_inv in Hdelay as [[_ ->]|(msg & [=] & _)].
    reflexivity.
  - apply video_error_handler_returns in Hh as ->.
    destruct (error_dict_status (str e)) as [Hs _]. congruence.
Qed.
Lemma calculate_stats_task_counts_witness :
  let w := scenes.annotated in
  let r := tasks.run samples.no_faults (call_calculate_stats_task 1) w in
  ∃ d,
    r = (Ok d, r.2)
    ∧ dict_get "status" d = Some (VStr "completed")
    ∧ (∃ rows,
         stats r.2 = stats w ++ rows
         ∧ Forall2 (stats_row_of 1 (actions w))
             (filter (λ p, Player.video p = 1%nat) (players w)) rows)
    ∧ (λ s, (Stats.player s, Stats.fga_2pt s, Stats.fgm_2pt s, Stats.points s))
        <$> stats r.2
      = [ (1%nat, 2, 1, 5)%Z; (2%nat, 0, 0, 1)%Z ].
Proof.
  intros w r.
  assert (Hrun : ∃ d, r = (Ok d, r.2)
                      ∧ dict_get "status" d = Some (VStr "completed")).
  { eexists. split; vm_compute; reflexivity. }
  destruct Hrun as (d & Hrun & Hd). exists d.
  split; [exact Hrun |]. split; [exact Hd |].
  split; [| vm_compute; reflexivity].
  exact (calculate_stats_task_counts samples.no_faults 1 w r.2 d Hrun Hd).
Defined.
